(** * ts-nodify: the scaffolding script [cli.js], embedded and verified

    The script asks six questions, settles a clash with an existing
    folder, and then writes a fixed tree of files whose bodies depend on
    two flags ([isTS], [isESM]), the project name and the port text.

    Strings are byte strings: the templates and the answers are held
    with their UTF-8 bytes.  [trim] and [parseInt] skip the white space
    and the line terminators of JavaScript in that encoding;
    [toLowerCase] lowers the letters of ASCII.  The run modelled is the
    one started without [--help] or [--version].  Console output (banners, progress lines) is not
    part of the model; every prompt, every file-system call, every child
    process and the exit status are. *)

From Stdlib Require Import String Ascii List ZArith Bool Lia.
From Stdlib Require Import DecimalString.
Import ListNotations.
Local Open Scope list_scope.
Local Open Scope string_scope.
Local Set Warnings "-register-all".

(** ** The JavaScript built-ins the script relies on *)

Module JS.

Definition nl : string := String (ascii_of_nat 10) EmptyString.
Definition dq : string := String (ascii_of_nat 34) EmptyString.
Definition sq : ascii := ascii_of_nat 39.
Definition bq : ascii := ascii_of_nat 96.

(** [s.startsWith(p)] *)
Definition startsWith (s p : string) : bool := String.prefix p s.

(** [arr.includes(x)] on an array of strings *)
Definition includes (arr : list string) (x : string) : bool :=
  existsb (String.eqb x) arr.

(** [arr.join(sep)] *)
Definition join (sep : string) (arr : list string) : string :=
  String.concat sep arr.

(** Strings hold the UTF-8 bytes of the text.  White space and line
    terminators of one byte: TAB, LF, VT, FF, CR, SP. *)
Definition isWhite (c : ascii) : bool :=
  let n := nat_of_ascii c in
  ((9 <=? n) && (n <=? 13))%nat || (n =? 32)%nat.

(** Of two bytes: U+00A0 (C2 A0). *)
Definition isWhite2 (c1 c2 : ascii) : bool :=
  ((nat_of_ascii c1 =? 194) && (nat_of_ascii c2 =? 160))%nat.

(** Of three bytes: U+1680 (E1 9A 80), U+2000 to U+200A (E2 80 80 to 8A),
    U+2028 and U+2029 (E2 80 A8, A9), U+202F (E2 80 AF), U+205F (E2 81 9F),
    U+3000 (E3 80 80) and U+FEFF (EF BB BF). *)
Definition isWhite3 (c1 c2 c3 : ascii) : bool :=
  let n1 := nat_of_ascii c1 in
  let n2 := nat_of_ascii c2 in
  let n3 := nat_of_ascii c3 in
  ((n1 =? 225) && (n2 =? 154) && (n3 =? 128)
   || (n1 =? 226) && (n2 =? 128)
      && ((128 <=? n3) && (n3 <=? 138) || (n3 =? 168) || (n3 =? 169)
          || (n3 =? 175))
   || (n1 =? 226) && (n2 =? 129) && (n3 =? 159)
   || (n1 =? 227) && (n2 =? 128) && (n3 =? 128)
   || (n1 =? 239) && (n2 =? 187) && (n3 =? 191))%nat.

(** Drops the white space the text starts with.  With [backwards] the text
    is read from its end, so the bytes of a character come last byte first. *)
Fixpoint stripWhite (backwards : bool) (s : string) : string :=
  match s with
  | EmptyString => EmptyString
  | String c1 r1 =>
      if isWhite c1 then stripWhite backwards r1
      else
        match r1 with
        | EmptyString => s
        | String c2 r2 =>
            if (if backwards then isWhite2 c2 c1 else isWhite2 c1 c2)
            then stripWhite backwards r2
            else
              match r2 with
              | EmptyString => s
              | String c3 r3 =>
                  if (if backwards then isWhite3 c3 c2 c1
                      else isWhite3 c1 c2 c3)
                  then stripWhite backwards r3
                  else s
              end
        end
  end.

(** [s.trimStart()] *)
Definition trimStart (s : string) : string := stripWhite false s.

Fixpoint rev_string (acc s : string) : string :=
  match s with
  | EmptyString => acc
  | String c r => rev_string (String c acc) r
  end.

(** [s.trimEnd()] *)
Definition trimEnd (s : string) : string :=
  rev_string EmptyString (stripWhite true (rev_string EmptyString s)).

(** [s.trim()] *)
Definition trim (s : string) : string := trimEnd (trimStart s).

Definition lowerChar (c : ascii) : ascii :=
  let n := nat_of_ascii c in
  if ((65 <=? n) && (n <=? 90))%nat then ascii_of_nat (n + 32) else c.

(** [s.toLowerCase()] on the bytes of the text: the letters A to Z are
    lowered and every other byte is kept.  This is the built-in on ASCII
    text; the case tables for letters outside ASCII are not part of it. *)
Fixpoint toLowerCase (s : string) : string :=
  match s with
  | EmptyString => EmptyString
  | String c r => String (lowerChar c) (toLowerCase r)
  end.

(** Numbers as far as the script uses them: an integer, or NaN. *)
Inductive number : Type :=
  | NaN
  | Int (z : Z).

Definition isNaN (x : number) : bool :=
  match x with NaN => true | Int _ => false end.

(** [x > y] and [x < y]; a comparison with NaN is false. *)
Definition gt (x : number) (y : Z) : bool :=
  match x with NaN => false | Int z => (y <? z)%Z end.

Definition lt (x : number) (y : Z) : bool :=
  match x with NaN => false | Int z => (z <? y)%Z end.

Definition digitValue (c : ascii) : option Z :=
  let n := nat_of_ascii c in
  if ((48 <=? n) && (n <=? 57))%nat then Some (Z.of_nat (n - 48)) else None.

(** The longest prefix of decimal digits, most significant first. *)
Fixpoint leadingDigits (s : string) : list Z :=
  match s with
  | EmptyString => []
  | String c r =>
      match digitValue c with
      | Some d => d :: leadingDigits r
      | None => []
      end
  end.

Definition digitsValue (ds : list Z) : Z :=
  fold_left (fun acc d => 10 * acc + d)%Z ds 0%Z.

(** [parseInt(s, 10)]: leading white space is skipped, one sign is read,
    then the longest run of decimal digits; whatever follows is ignored.
    No digit at all gives NaN.  The value is kept exact: the script only
    compares it with 0 and 65536, which rounding to a double preserves. *)
Definition parseInt10 (s : string) : number :=
  let s1 := trimStart s in
  let '(sign, s2) :=
    match s1 with
    | String "-" r => ((-1)%Z, r)
    | String "+" r => (1%Z, r)
    | _ => (1%Z, s1)
    end in
  match leadingDigits s2 with
  | [] => NaN
  | ds => Int (sign * digitsValue ds)
  end.

(** [path.join] on plain segments, POSIX separator. *)
Definition path_join (segs : list string) : string := join "/" segs.

End JS.

(** ** JSON values, property assignment and [JSON.stringify(v, null, 2)] *)

Module Json.
Import JS.

Inductive json : Type :=
  | JNull
  | JBool (b : bool)
  | JNum (z : Z)
  | JStr (s : string)
  | JArr (items : list json)
  | JObj (fields : list (string * json)).

(** [o.k] on the fields of an object: the first field named [k]. *)
Fixpoint field (k : string) (fs : list (string * json)) : option json :=
  match fs with
  | [] => None
  | (k', v) :: r => if String.eqb k k' then Some v else field k r
  end.

(** [o.k = v]: an existing property keeps its place, a new one goes last. *)
Fixpoint assign (k : string) (v : json) (fs : list (string * json))
  : list (string * json) :=
  match fs with
  | [] => [(k, v)]
  | (k', v') :: r =>
      if String.eqb k k' then (k, v) :: r else (k', v') :: assign k v r
  end.

Definition get (k : string) (v : json) : option json :=
  match v with
  | JObj fs => field k fs
  | _ => None
  end.

Definition hexDigit (n : nat) : ascii :=
  if (n <? 10)%nat then ascii_of_nat (48 + n) else ascii_of_nat (87 + n).

Definition escapeChar (c : ascii) : string :=
  let n := nat_of_ascii c in
  if (n =? 34)%nat then "\" ++ dq
  else if (n =? 92)%nat then "\\"
  else if (n =? 8)%nat then "\b"
  else if (n =? 12)%nat then "\f"
  else if (n =? 10)%nat then "\n"
  else if (n =? 13)%nat then "\r"
  else if (n =? 9)%nat then "\t"
  else if (n <? 32)%nat
       then "\u00" ++ String (hexDigit (n / 16)) (String (hexDigit (n mod 16)) EmptyString)
  else String c EmptyString.

Fixpoint escape (s : string) : string :=
  match s with
  | EmptyString => EmptyString
  | String c r => escapeChar c ++ escape r
  end.

Definition quote (s : string) : string := dq ++ escape s ++ dq.

Definition showZ (z : Z) : string := NilZero.string_of_int (Z.to_int z).

(** [stringify ind v]: the text of [v] when the enclosing line is
    indented by [ind]; every level adds two spaces. *)
Fixpoint stringify (ind : string) (v : json) : string :=
  let ind' := ind ++ "  " in
  let sep := "," ++ nl ++ ind' in
  match v with
  | JNull => "null"
  | JBool true => "true"
  | JBool false => "false"
  | JNum z => showZ z
  | JStr s => quote s
  | JArr [] => "[]"
  | JArr items =>
      "[" ++ nl ++ ind' ++ join sep (map (stringify ind') items)
          ++ nl ++ ind ++ "]"
  | JObj [] => "{}"
  | JObj fs =>
      "{" ++ nl ++ ind'
          ++ join sep (map (fun kv => quote (fst kv) ++ ": " ++ stringify ind' (snd kv)) fs)
          ++ nl ++ ind ++ "}"
  end.

(** [JSON.stringify(v, null, 2)] *)
Definition stringify2 (v : json) : string := stringify EmptyString v.

End Json.

(** ** Scripts: prompts, file-system calls and exits, in order *)

Module Script.

(** What the script does to the outside world, one event per call. *)
Inductive Event : Type :=
| Asked (message : string)
| ExistsSync (path : string) (found : bool)
| MkdirSync (path : string)
| Chdir (path : string)
| ExecSync (command : string)
| ReadFileSync (path : string)
| WriteFileSync (path content : string).

(** The person at the terminal: the lines typed at input prompts, the
    entries picked in menus and the boxes ticked in checkbox prompts, each
    in the order they are given. *)
Record User : Type := {
  typed : list string;
  chosen : list string;
  ticked : list (list string)
}.

Inductive Result (A : Type) : Type :=
| Done (a : A)
| Exited (code : Z)
| Thrown (error : string)
| Waiting.

Arguments Done {A} a.
Arguments Exited {A} code.
Arguments Thrown {A} error.
Arguments Waiting {A}.

(** A script consumes answers of the user and produces a result and the
    events of its calls. *)
Definition Script (A : Type) : Type := User -> Result A * User * list Event.

Definition ret {A} (a : A) : Script A := fun u => (Done a, u, []).

Definition bind {A B} (m : Script A) (k : A -> Script B) : Script B :=
  fun u =>
    match m u with
    | (Done a, u1, evs1) =>
        let '(r, u2, evs2) := k a u1 in (r, u2, (evs1 ++ evs2)%list)
    | (Exited c, u1, evs1) => (Exited c, u1, evs1)
    | (Thrown e, u1, evs1) => (Thrown e, u1, evs1)
    | (Waiting, u1, evs1) => (Waiting, u1, evs1)
    end.

Definition emit (e : Event) : Script unit := fun u => (Done tt, u, [e]).

(** [process.exit(code)] *)
Definition exit {A} (code : Z) : Script A := fun u => (Exited code, u, []).

Definition throw {A} (error : string) : Script A := fun u => (Thrown error, u, []).

Definition when (b : bool) (m : Script unit) : Script unit :=
  if b then m else ret tt.

Fixpoint forEach {A} (l : list A) (f : A -> Script unit) : Script unit :=
  match l with
  | [] => ret tt
  | x :: r => bind (f x) (fun _ => forEach r f)
  end.

Definition result {A} (o : Result A * User * list Event) : Result A := fst (fst o).
Definition events {A} (o : Result A * User * list Event) : list Event := snd o.

End Script.

Declare Scope script_scope.
Delimit Scope script_scope with script.
Notation "x <- m ;; k" := (Script.bind m (fun x => k))
  (at level 61, m at next level, right associativity) : script_scope.
Notation "m ;; k" := (Script.bind m (fun _ => k))
  (at level 61, right associativity) : script_scope.

(** ** The prompt library, at its interface

    The three prompt kinds of inquirer as the script uses them.  An input
    prompt answers with the typed line, or with the default of the
    question when the line is empty; a question with a [validate] function
    is put again until the function returns [true].  A menu answers with
    one value it offers and has not disabled; a pick it does not offer is
    passed over.  A checkbox prompt answers with the offered values that
    are ticked, in the order of the choices.  A prompt with no answer left
    keeps the script waiting. *)

Module Inquirer.
Import Script.

(** What a [validate] function returns: [true], or the message to show. *)
Inductive Validation : Type :=
| Valid
| Invalid (message : string).

Record InputQ : Type := {
  i_message : string;
  i_default : string;
  i_validate : option (string -> Validation)
}.

Record Choice : Type := {
  c_value : string;
  c_disabled : bool
}.

Record ListQ : Type := {
  l_message : string;
  l_choices : list Choice
}.

Record CheckboxQ : Type := {
  k_message : string;
  k_choices : list Choice
}.

Definition plain (value : string) : Choice :=
  {| c_value := value; c_disabled := false |}.

Definition offered (choices : list Choice) : list string :=
  map c_value (filter (fun c => negb (c_disabled c)) choices).

Definition filterInput (q : InputQ) (line : string) : string :=
  if String.eqb line "" then i_default q else line.

Definition validates (q : InputQ) (value : string) : bool :=
  match i_validate q with
  | None => true
  | Some f => match f value with Valid => true | Invalid _ => false end
  end.

Fixpoint inputLoop (q : InputQ) (lines : list string)
  : Result string * list string * list Event :=
  match lines with
  | [] => (Waiting, [], [Asked (i_message q)])
  | line :: rest =>
      let value := filterInput q line in
      if validates q value
      then (Done value, rest, [Asked (i_message q)])
      else let '(r, rest', evs) := inputLoop q rest in
           (r, rest', Asked (i_message q) :: evs)
  end.

Definition askInput (q : InputQ) : Script string :=
  fun u =>
    let '(r, rest, evs) := inputLoop q (typed u) in
    (r, {| typed := rest; chosen := chosen u; ticked := ticked u |}, evs).

Fixpoint listLoop (q : ListQ) (picks : list string) : Result string * list string :=
  match picks with
  | [] => (Waiting, [])
  | v :: rest =>
      if JS.includes (offered (l_choices q)) v then (Done v, rest) else listLoop q rest
  end.

Definition askList (q : ListQ) : Script string :=
  fun u =>
    let '(r, rest) := listLoop q (chosen u) in
    (r, {| typed := typed u; chosen := rest; ticked := ticked u |}, [Asked (l_message q)]).

Definition askCheckbox (q : CheckboxQ) : Script (list string) :=
  fun u =>
    match ticked u with
    | [] => (Waiting, u, [Asked (k_message q)])
    | boxes :: rest =>
        (Done (filter (JS.includes boxes) (offered (k_choices q))),
         {| typed := typed u; chosen := chosen u; ticked := rest |},
         [Asked (k_message q)])
    end.

End Inquirer.

(** ** The file bodies

    Every body is the template literal of [cli.js] with its escapes
    resolved; a double quote is spliced in as [dq]. *)

Module Templates.
Import JS Json.

(** *** Logger templates (module level) *)

Definition LOGGER_TS_ESM : string := trim
"
import winston from 'winston';

const customFormat = winston.format.combine(
  winston.format.colorize(),
  winston.format.timestamp({ format: 'YYYY-MM-DD HH:mm:ss' }),
  winston.format.printf(({ timestamp, level, message }) => {
    return `${timestamp} ${level}: ${message}`;
  })
);

const logger = winston.createLogger({
  level: 'info',
  format: customFormat,
  transports: [
    new winston.transports.Console(),
    new winston.transports.File({
      filename: 'combined.log',
      format: winston.format.json()
    })
  ]
});

export default logger;
".

Definition LOGGER_JS_ESM : string := LOGGER_TS_ESM.

Definition LOGGER_TS_CJS : string := trim
"
const winston = require('winston');

const customFormat = winston.format.combine(
  winston.format.colorize(),
  winston.format.timestamp({ format: 'YYYY-MM-DD HH:mm:ss' }),
  winston.format.printf(({ timestamp, level, message }) => {
    return `${timestamp} ${level}: ${message}`;
  })
);

const logger = winston.createLogger({
  level: 'info',
  format: customFormat,
  transports: [
    new winston.transports.Console(),
    new winston.transports.File({
      filename: 'combined.log',
      format: winston.format.json()
    })
  ]
});

module.exports = logger;
".

Definition LOGGER_JS_CJS : string := LOGGER_TS_CJS.

Section Bodies.

Variables (isTS isESM : bool) (projectName port : string).

(** [tsconfig]: the object written to tsconfig.json (TypeScript only). *)
Definition tsconfig : json :=
  JObj [
    ("compilerOptions", JObj (app [
        ("target", JStr "ES2020");
        ("module", JStr (if isESM then "NodeNext" else "CommonJS"));
        ("moduleResolution", JStr (if isESM then "NodeNext" else "Node"));
        ("outDir", JStr "dist");
        ("rootDir", JStr "./src");
        ("strict", JBool true);
        ("esModuleInterop", JBool true);
        ("forceConsistentCasingInFileNames", JBool true)]
        (if isESM then [("allowSyntheticDefaultImports", JBool true)] else [])));
    ("include", JArr [JStr "src/**/*.ts"]);
    ("exclude", JArr [JStr "node_modules"])
  ].

Definition folders : list string :=
  [ "src/controllers"; "src/routes"; "src/services"; "src/models";
    "src/middleware"; "src/utils"; "src/types"; "src/config" ].

Definition envContent : string :=
"PORT=" ++ port ++ "
DB_URI=
API_VERSION=v1
".

Definition loggerPath : string :=
  path_join ["src"; "utils"; if isTS then "logger.ts" else "logger.js"].

Definition loggerContent : string :=
  if isTS && isESM then LOGGER_TS_ESM
  else if isTS && negb isESM then LOGGER_TS_CJS
  else if negb isTS && isESM then LOGGER_JS_ESM
  else LOGGER_JS_CJS.

Definition ext : string := if isTS then "ts" else "js".
Definition esmExt : string := if isESM then ".js" else "".

(** DB stub *)
Definition dbPath : string := "src/config/db." ++ ext.

Definition dbContent : string :=
  if isTS then
"export async function connectToDatabase(): Promise<void> {
  console.log(" ++ dq ++ "📦 Connected to database" ++ dq ++ ");
}"
  else if isESM then
"export async function connectToDatabase() {
  console.log(" ++ dq ++ "📦 Connected to database" ++ dq ++ ");
}"
  else
"async function connectToDatabase() {
  console.log(" ++ dq ++ "📦 Connected to database" ++ dq ++ ");
}
module.exports = { connectToDatabase };".

(** Swagger stub *)
Definition swaggerPath : string := "src/config/swagger." ++ ext.

Definition swaggerContent : string :=
  if isTS then
"import swaggerUi from 'swagger-ui-express';
import { Express } from 'express';

export function setupSwagger(app: Express) {
  const swaggerSpec = { openapi: '3.0.0', info: { title: 'API Docs', version: '1.0.0' } };
  app.use('/docs', swaggerUi.serve, swaggerUi.setup(swaggerSpec));
}"
  else if isESM then
"import swaggerUi from 'swagger-ui-express';

export function setupSwagger(app) {
  const swaggerSpec = { openapi: '3.0.0', info: { title: 'API Docs', version: '1.0.0' } };
  app.use('/docs', swaggerUi.serve, swaggerUi.setup(swaggerSpec));
}"
  else
"const swaggerUi = require('swagger-ui-express');
function setupSwagger(app) {
  const swaggerSpec = { openapi: '3.0.0', info: { title: 'API Docs', version: '1.0.0' } };
  app.use('/docs', swaggerUi.serve, swaggerUi.setup(swaggerSpec));
}
module.exports = { setupSwagger };".

(** Middleware: transactionId *)
Definition transactionIdMiddlewarePath : string := "src/middleware/transactionIdMiddleware." ++ ext.

Definition transactionIdMiddlewareContent : string :=
  if isTS then
"import { v4 as uuidv4 } from 'uuid';
import { Request, Response, NextFunction } from 'express';

declare global { namespace Express { interface Request { transactionId?: string } } }

export function transactionIdMiddleware(req: Request, _res: Response, next: NextFunction) {
  req.transactionId = uuidv4();
  next();
}"
  else if isESM then
"import { v4 as uuidv4 } from 'uuid';

export function transactionIdMiddleware(req, _res, next) {
  req.transactionId = uuidv4();
  next();
}"
  else
"const { v4: uuidv4 } = require('uuid');
function transactionIdMiddleware(req, _res, next) {
  req.transactionId = uuidv4();
  next();
}
module.exports = { transactionIdMiddleware };".

(** Middleware: loggerConsole *)
Definition loggerConsolePath : string := "src/middleware/loggerConsole." ++ ext.

Definition loggerConsoleContent : string :=
  if isTS then
"import { Request, Response, NextFunction } from 'express';
export function loggerConsole(req: Request, _res: Response, next: NextFunction) {
  console.log(`[${req.method}] ${req.url} - txId:${req.transactionId}`);
  next();
}"
  else if isESM then
"export function loggerConsole(req, _res, next) {
  console.log(`[${req.method}] ${req.url} - txId:${req.transactionId}`);
  next();
}"
  else
"function loggerConsole(req, _res, next) {
  console.log(`[${req.method}] ${req.url} - txId:${req.transactionId}`);
  next();
}
module.exports = { loggerConsole };".

(** Middleware: errorHandler *)
Definition errorHandlerPath : string := "src/middleware/errorHandler." ++ ext.

Definition errorHandlerContent : string :=
  if isTS then
"import { Request, Response, NextFunction } from 'express';

export function errorHandler(err: Error, _req: Request, res: Response, _next: NextFunction) {
  console.error('❌ Error:', err.message);
  res.status(500).json({ error: err.message });
}"
  else if isESM then
"export function errorHandler(err, _req, res, _next) {
  console.error('❌ Error:', err.message);
  res.status(500).json({ error: err.message });
}"
  else
"function errorHandler(err, _req, res, _next) {
  console.error('❌ Error:', err.message);
  res.status(500).json({ error: err.message });
}
module.exports = { errorHandler };".

(** healthCheckRoute *)
Definition healthCheckRoutePath : string := "src/routes/healthCheckRoute." ++ ext.

Definition healthCheckRouteContent : string :=
  if isTS then
"import { Router } from 'express';

const router = Router();

router.get('/health', (req, res) => {
  res.json({ status: 'ok', transactionId: req.transactionId });
});

export default router;"
  else if isESM then
"import { Router } from 'express';

const router = Router();

router.get('/health', (req, res) => {
  res.json({ status: 'ok', transactionId: req.transactionId });
});

export default router;"
  else
"const { Router } = require('express');

const router = Router();

router.get('/health', (req, res) => {
  res.json({ status: 'ok', transactionId: req.transactionId });
});

module.exports = router;".

Definition appFile : string := "src/app." ++ ext.

Definition appFileContent : string :=
  if isTS then
"import express from 'express';
import cors from 'cors';
import cookieParser from 'cookie-parser';
import { transactionIdMiddleware } from './middleware/transactionIdMiddleware" ++ esmExt ++ "';
import { loggerConsole } from './middleware/loggerConsole" ++ esmExt ++ "';
import { errorHandler } from './middleware/errorHandler" ++ esmExt ++ "';
import { setupSwagger } from './config/swagger" ++ esmExt ++ "';
import healthCheckRoute from './routes/healthCheckRoute" ++ esmExt ++ "';
import { env } from 'process';

const app = express();

app.use(cors());
app.use(express.json());
app.use(cookieParser());
app.use(transactionIdMiddleware);
app.use(loggerConsole);

const apiVersion = env.API_VERSION || 'v1';
app.use(`/api/${apiVersion}`, healthCheckRoute);

setupSwagger(app);

app.use(errorHandler);

export default app;"
  else if isESM then
"import express from 'express';
import cors from 'cors';
import cookieParser from 'cookie-parser';
import { transactionIdMiddleware } from './middleware/transactionIdMiddleware.js';
import { loggerConsole } from './middleware/loggerConsole.js';
import { errorHandler } from './middleware/errorHandler.js';
import { setupSwagger } from './config/swagger.js';
import healthCheckRoute from './routes/healthCheckRoute.js';

const app = express();

app.use(cors());
app.use(express.json());
app.use(cookieParser());
app.use(transactionIdMiddleware);
app.use(loggerConsole);

const apiVersion = process.env.API_VERSION || 'v1';
app.use(`/api/${apiVersion}`, healthCheckRoute);

setupSwagger(app);

app.use(errorHandler);

export default app;"
  else
"const express = require('express');
const cors = require('cors');
const cookieParser = require('cookie-parser');
const { transactionIdMiddleware } = require('./middleware/transactionIdMiddleware');
const { loggerConsole } = require('./middleware/loggerConsole');
const { errorHandler } = require('./middleware/errorHandler');
const { setupSwagger } = require('./config/swagger');
const healthCheckRoute = require('./routes/healthCheckRoute');

const app = express();

app.use(cors());
app.use(express.json());
app.use(cookieParser());
app.use(transactionIdMiddleware);
app.use(loggerConsole);

const apiVersion = process.env.API_VERSION || 'v1';
app.use(`/api/${apiVersion}`, healthCheckRoute);

setupSwagger(app);

app.use(errorHandler);

module.exports = app;".

Definition serverFile : string := "src/server." ++ ext.

Definition serverFileContent : string :=
  if isTS then
"import app from './app" ++ esmExt ++ "';
import dotenv from 'dotenv';
import logger from './utils/logger" ++ esmExt ++ "';
import { connectToDatabase } from './config/db" ++ esmExt ++ "';

dotenv.config();

const PORT: number = Number(process.env.PORT) || " ++ port ++ ";

(async () => {
  try {
    await connectToDatabase();
    app.listen(PORT, () => logger.info(`🚀 Server running at http://localhost:${PORT}`));
  } catch (err) {
    logger.error('❌ Failed to start server: ' + (err as Error).message);
    process.exit(1);
  }
})();"
  else if isESM then
"import dotenv from 'dotenv';
import app from './app.js';
import logger from './utils/logger.js';
import { connectToDatabase } from './config/db.js';

dotenv.config();

const PORT = process.env.PORT || " ++ port ++ ";

(async () => {
  try {
    await connectToDatabase();
    app.listen(PORT, () => logger.info(`🚀 Server running at http://localhost:${PORT}`));
  } catch (err) {
    logger.error('❌ Failed to start server: ' + err.message);
    process.exit(1);
  }
})();"
  else
"const dotenv = require('dotenv');
const app = require('./app');
const logger = require('./utils/logger');
const { connectToDatabase } = require('./config/db');

dotenv.config();

const PORT = process.env.PORT || " ++ port ++ ";

(async () => {
  try {
    await connectToDatabase();
    app.listen(PORT, () => logger.info(`🚀 Server running at http://localhost:${PORT}`));
  } catch (err) {
    logger.error('❌ Failed to start server: ' + err.message);
    process.exit(1);
  }
})();".

(** *** Deployment templates *)

Definition dockerfileContent : string :=
"# Dockerfile
FROM node:20-alpine

WORKDIR /app

COPY package*.json ./
RUN npm install

COPY . .

" ++ (if isTS then "RUN npm run build" else "") ++ "

EXPOSE " ++ port ++ "

CMD [" ++ dq ++ "npm" ++ dq ++ ", " ++ dq ++ "start" ++ dq ++ "]
".

Definition dockerComposeContent : string :=
"version: " ++ dq ++ "3.8" ++ dq ++ "

services:
  app:
    build: .
    container_name: " ++ projectName ++ "
    ports:
      - " ++ dq ++ port ++ ":" ++ port ++ dq ++ "
    environment:
      - NODE_ENV=development
      - PORT=" ++ port ++ "
    volumes:
      - .:/app
      - /app/node_modules
    command: npm run dev
".

Definition jenkinsfileContent : string :=
"pipeline {
  agent any

  stages {
    stage('Checkout') {
      steps {
        checkout scm
      }
    }

    stage('Install') {
      steps {
        sh 'npm install'
      }
    }

    " ++ (if isTS then "
    stage('Build') {
      steps {
        sh 'npm run build'
      }
    }" else "") ++ "

    stage('Test') {
      steps {
        sh 'npm test || echo " ++ dq ++ "No tests configured" ++ dq ++ "'
      }
    }

    stage('Docker Build & Push') {
      steps {
        sh 'docker build -t " ++ toLowerCase projectName ++ ":latest .'
      }
    }
  }
}
".

Definition ciContent : string :=
"name: Node.js CI

on:
  push:
    branches: [ " ++ dq ++ "main" ++ dq ++ " ]
  pull_request:
    branches: [ " ++ dq ++ "main" ++ dq ++ " ]

jobs:
  build:
    runs-on: ubuntu-latest

    steps:
    - uses: actions/checkout@v3
    - name: Use Node.js
      uses: actions/setup-node@v3
      with:
        node-version: 20
    - run: npm install
    " ++ (if isTS then "- run: npm run build" else "") ++ "
    - run: npm test
".

End Bodies.

End Templates.

(** ** The main script *)

Module Cli.
Import JS Json Script Inquirer Templates.
Local Open Scope script_scope.

(** What the script finds around it: which paths exist in the starting
    directory, what [process.cwd()] returns once the process has changed
    into a path, which child processes succeed, and the package.json that
    npm leaves behind, parsed.  File-system calls themselves are taken to
    succeed: a path that exists is a directory, and the disk can be
    written. *)
Record Host : Type := {
  existsOnDisk : string -> bool;
  cwdAfter : string -> string;
  toolSucceeds : string -> bool;
  manifest : json
}.

(** *** The questions (lines 176-241) *)

Definition projectNameQ : InputQ :=
  {| i_message := "Enter your project name:";
     i_default := "my-node-app";
     i_validate := None |}.

Definition languageQ : ListQ :=
  {| l_message := "Choose your language:";
     l_choices := [plain "TypeScript"; plain "JavaScript"] |}.

Definition moduleSystemQ : ListQ :=
  {| l_message := "Choose module system:";
     l_choices :=
       [ {| c_value := "ES Modules (import/export)"; c_disabled := false |};
         {| c_value := "CommonJS (require/module.exports)"; c_disabled := true |} ] |}.

Definition packagesQ : CheckboxQ :=
  {| k_message := "Select packages to install (Note: Required ones are suggested):";
     k_choices := map plain
       [ "express"; "dotenv"; "cors"; "mongoose"; "prisma"; "morgan"; "winston";
         "uuid"; "bcrypt"; "swagger-ui-express"; "cookie-parser";
         "helmet"; "compression"; "express-rate-limit";
         "joi"; "zod"; "axios";
         "jsonwebtoken"; "passport"; "multer"; "socket.io" ] |}.

(** The [validate] function of the port question (lines 223-226). *)
Definition validatePort (input : string) : Validation :=
  let parsed := parseInt10 input in
  if negb (isNaN parsed) && gt parsed 0 && lt parsed 65536
  then Valid
  else Invalid "Please enter a valid port number".

Definition portQ : InputQ :=
  {| i_message := "Enter the port number for your server:";
     i_default := "3000";
     i_validate := Some validatePort |}.

Definition deploymentHelpersQ : CheckboxQ :=
  {| k_message := "Select deployment helpers to generate:";
     k_choices := map plain ["dockerfile"; "compose"; "jenkins"; "github"] |}.

Record Answers : Type := {
  projectName : string;
  language : string;
  moduleSystem : string;
  packages : list string;
  port : string;
  deploymentHelpers : list string
}.

Definition promptAnswers : Script Answers :=
  projectName <- askInput projectNameQ ;;
  language <- askList languageQ ;;
  moduleSystem <- askList moduleSystemQ ;;
  packages <- askCheckbox packagesQ ;;
  port <- askInput portQ ;;
  deploymentHelpers <- askCheckbox deploymentHelpersQ ;;
  ret {| projectName := projectName; language := language;
         moduleSystem := moduleSystem; packages := packages;
         port := port; deploymentHelpers := deploymentHelpers |}.

(** *** Folder conflicts (lines 249-270) *)

Definition conflictQ (projectName : string) : ListQ :=
  {| l_message := "Folder '" ++ projectName ++ "' already exists. What would you like to do?";
     l_choices := map plain
       ["Continue (overwrite)"; "Choose a different name"; "Cancel setup"] |}.

Definition renameQ (projectName : string) : InputQ :=
  {| i_message := "Enter a new project name:";
     i_default := projectName ++ "-new";
     i_validate := None |}.

Section Run.

Variable host : Host.

Definition existsSync (path : string) : Script bool :=
  let found := existsOnDisk host path in
  emit (ExistsSync path found) ;; ret found.

(** [fs.mkdirSync(path, { recursive: true })], which also succeeds on a
    directory that exists. *)
Definition mkdirSync (path : string) : Script unit := emit (MkdirSync path).
Definition chdir (path : string) : Script unit := emit (Chdir path).

Definition writeFileSync (path content : string) : Script unit :=
  emit (WriteFileSync path content).

(** [execSync]: a command that fails raises. *)
Definition execSync (command : string) : Script unit :=
  emit (ExecSync command) ;;
  if toolSucceeds host command then ret tt
  else throw ("Command failed: " ++ command).

(** Returns the name the project is generated under. *)
Definition resolveConflict (projectName : string) : Script string :=
  found <- existsSync projectName ;;
  if found then
    action <- askList (conflictQ projectName) ;;
    if String.eqb action "Cancel setup" then exit 1
    else if String.eqb action "Choose a different name"
         then askInput (renameQ projectName)
         else ret projectName
  else ret projectName.

(** *** Update package.json (lines 315-328)

    [pkgJson.type = ...] and [pkgJson.scripts.start = ...] on the parsed
    manifest.  Writing a property of something that is not an object
    raises a TypeError (the script is an ES module, hence strict); a
    named property written to an array is not serialised. *)
Definition setScripts (isTS isESM : bool) (scripts : list (string * json))
  : list (string * json) :=
  if isTS then
    assign "dev" (JStr (if isESM then "node --loader ts-node/esm src/server.ts"
                        else "ts-node src/server.ts"))
      (assign "start" (JStr "node dist/server.js") scripts)
  else
    assign "dev" (JStr "nodemon src/server.js")
      (assign "start" (JStr "node src/server.js") scripts).

Definition updatePackageJson (isTS isESM : bool) (pkgJson : json) : option json :=
  match pkgJson with
  | JObj fs =>
      let fs1 := if isESM then assign "type" (JStr "module") fs else fs in
      match field "scripts" fs1 with
      | Some (JObj scripts) =>
          Some (JObj (assign "scripts" (JObj (setScripts isTS isESM scripts)) fs1))
      | Some (JArr items) => Some (JObj fs1)
      | _ => None
      end
  | _ => None
  end.

Definition orThrow {A} (error : string) (o : option A) : Script A :=
  match o with
  | Some a => ret a
  | None => throw error
  end.

(** *** Deployment files (lines 491-532) *)
Definition deployment (isTS : bool) (projectName port : string)
    (deploymentHelpers : list string) : Script unit :=
  when (includes deploymentHelpers "dockerfile")
    (writeFileSync "Dockerfile" (dockerfileContent isTS port)) ;;
  when (includes deploymentHelpers "compose")
    (writeFileSync "docker-compose.yml" (dockerComposeContent projectName port)) ;;
  when (includes deploymentHelpers "jenkins")
    (writeFileSync "Jenkinsfile" (jenkinsfileContent isTS projectName)) ;;
  when (includes deploymentHelpers "github")
    (mkdirSync ".github/workflows" ;;
     writeFileSync ".github/workflows/ci.yml" (ciContent isTS)).

(** *** The source files (lines 331-416), in the order they are written *)
Definition sourceFiles (isTS isESM : bool) (port : string) : list (string * string) :=
  [ (loggerPath isTS, loggerContent isTS isESM);
    (dbPath isTS, dbContent isTS isESM);
    (swaggerPath isTS, swaggerContent isTS isESM);
    (transactionIdMiddlewarePath isTS, transactionIdMiddlewareContent isTS isESM);
    (loggerConsolePath isTS, loggerConsoleContent isTS isESM);
    (errorHandlerPath isTS, errorHandlerContent isTS isESM);
    (healthCheckRoutePath isTS, healthCheckRouteContent isTS isESM);
    (appFile isTS, appFileContent isTS isESM);
    (serverFile isTS, serverFileContent isTS isESM port) ].

(** *** Everything after the project directory is entered (lines 275-532) *)
Definition generate (isTS isESM : bool) (projectName : string)
    (packages : list string) (port : string) (deploymentHelpers : list string)
  : Script unit :=
  execSync "npm init -y" ;;
  execSync ("npm install " ++ join " " packages) ;;
  (if isTS then
     execSync "npm install --save-dev typescript ts-node ts-node-dev @types/node @types/express @types/cors @types/cookie-parser @types/morgan @types/bcrypt @types/swagger-ui-express @types/uuid" ;;
     writeFileSync "tsconfig.json" (stringify2 (tsconfig isESM))
   else
     execSync "npm install --save-dev nodemon") ;;
  forEach folders mkdirSync ;;
  writeFileSync ".env" (envContent port) ;;
  let pkgPath := path_join [cwdAfter host projectName; "package.json"] in
  emit (ReadFileSync pkgPath) ;;
  pkgJson <- orThrow "TypeError" (updatePackageJson isTS isESM (manifest host)) ;;
  writeFileSync pkgPath (stringify2 pkgJson) ;;
  forEach (sourceFiles isTS isESM port) (fun f => writeFileSync (fst f) (snd f)) ;;
  deployment isTS projectName port deploymentHelpers.

(** *** From the answers on (lines 243-532) *)
Definition scaffold (answers : Answers) : Script unit :=
  let isTS := String.eqb (language answers) "TypeScript" in
  let isESM := startsWith (moduleSystem answers) "ES Modules" in
  projectName <- resolveConflict (projectName answers) ;;
  mkdirSync projectName ;;
  chdir projectName ;;
  generate isTS isESM projectName (packages answers) (port answers)
           (deploymentHelpers answers).

Definition main : Script unit :=
  answers <- promptAnswers ;;
  scaffold answers.

End Run.

End Cli.

(** ** Reading the generated texts and the event log *)

Module Observe.
Import JS Json Script Inquirer Templates Cli.

(** *** String literals of a JavaScript text

    A small lexer: a literal opens at a single quote, a double quote or a
    backtick and runs to the next occurrence of the same character.  (The
    templates contain no escaped delimiter and no comment.) *)

Definition isDelimiter (c : ascii) : bool :=
  Ascii.eqb c sq || Ascii.eqb c (ascii_of_nat 34) || Ascii.eqb c bq.

(** The lexer state: outside a literal, or inside one opened by [fst]
    with the characters read so far in [snd], last one first. *)
Definition LexState : Type := option (ascii * string).

Definition lexStep (st : LexState) (c : ascii) : LexState * list string :=
  match st with
  | None => if isDelimiter c then (Some (c, EmptyString), []) else (None, [])
  | Some (d, acc) =>
      if Ascii.eqb c d then (None, [rev_string EmptyString acc])
      else (Some (d, String c acc), [])
  end.

Fixpoint scan (st : LexState) (s : string) : list string :=
  match s with
  | EmptyString => []
  | String c r =>
      let '(st', out) := lexStep st c in (out ++ scan st' r)%list
  end.

Fixpoint lexAfter (st : LexState) (s : string) : LexState :=
  match s with
  | EmptyString => st
  | String c r => lexAfter (fst (lexStep st c)) r
  end.

Definition literals (s : string) : list string := scan None s.

Definition isRelative (spec : string) : bool :=
  startsWith spec "./" || startsWith spec "../".

(** The module specifiers that point into the project. *)
Definition relativeImports (content : string) : list string :=
  filter isRelative (literals content).

(** The text after the last occurrence of [d], if there is one. *)
Fixpoint afterLast (d : ascii) (s : string) : option string :=
  match s with
  | EmptyString => None
  | String c r =>
      match afterLast d r with
      | Some t => Some t
      | None => if Ascii.eqb c d then Some r else None
      end
  end.

Definition lastSegment (s : string) : string :=
  match afterLast "/" s with Some t => t | None => s end.

(** The extension a specifier carries: from the last dot of its last
    segment on, or nothing. *)
Definition suffixOf (spec : string) : string :=
  match afterLast "." (lastSegment spec) with
  | Some e => "." ++ e
  | None => ""
  end.

(** The project modules the app entry and the server entry refer to. *)
Definition appStems : list string :=
  [ "./middleware/transactionIdMiddleware"; "./middleware/loggerConsole";
    "./middleware/errorHandler"; "./config/swagger"; "./routes/healthCheckRoute" ].

Definition serverStems : list string :=
  [ "./app"; "./utils/logger"; "./config/db" ].

Fixpoint quoteFree (s : string) : bool :=
  match s with
  | EmptyString => true
  | String c r => negb (isDelimiter c) && quoteFree r
  end.

(** *** Decimal literals *)

Definition isDigit (c : ascii) : bool :=
  match digitValue c with Some _ => true | None => false end.

Fixpoint allDigits (s : string) : bool :=
  match s with
  | EmptyString => true
  | String c r => isDigit c && allDigits r
  end.

(** A decimal integer literal without leading zeros: [0], or a non-empty
    run of digits that does not start with [0]. *)
Definition decimalLiteral (s : string) : bool :=
  match s with
  | EmptyString => false
  | String "0" r => String.eqb r ""
  | String c r => isDigit c && allDigits r
  end.

(** *** Lines of a text, for the line-oriented descriptors *)

Definition isLF (c : ascii) : bool := Ascii.eqb c (ascii_of_nat 10).

Definition prepend (c : ascii) (ls : list string) : list string :=
  match ls with
  | l :: t => String c l :: t
  | [] => [String c EmptyString]
  end.

Fixpoint textLines (s : string) : list string :=
  match s with
  | EmptyString => [EmptyString]
  | String c r => if isLF c then EmptyString :: textLines r else prepend c (textLines r)
  end.

Fixpoint singleLine (s : string) : bool :=
  match s with
  | EmptyString => true
  | String c r => negb (isLF c) && singleLine r
  end.

Definition hasLine (line content : string) : bool :=
  includes (textLines content) line.

(** *** The compose descriptor *)





(** Indentation in YAML is made of spaces. *)
Fixpoint dropSpaces (line : string) : string :=
  match line with
  | String " " r => dropSpaces r
  | _ => line
  end.




Fixpoint dropPrefix (p s : string) : option string :=
  match p, s with
  | EmptyString, _ => Some s
  | String a p', String b s' => if Ascii.eqb a b then dropPrefix p' s' else None
  | _, EmptyString => None
  end.

(** Blanks inside a YAML line: space and TAB. *)
Definition isBlank (c : ascii) : bool :=
  let n := nat_of_ascii c in ((n =? 32) || (n =? 9))%nat.

Fixpoint dropBlanks (s : string) : string :=
  match s with
  | String c r => if isBlank c then dropBlanks r else s
  | EmptyString => EmptyString
  end.

Definition trimBlanks (s : string) : string :=
  rev_string "" (dropBlanks (rev_string "" (dropBlanks s))).

(** What a line holds before its comment: a [#] at the start of the value or
    after a blank opens a comment that runs to the end of the line. *)
Fixpoint beforeComment (afterBlank : bool) (s : string) : string :=
  match s with
  | EmptyString => EmptyString
  | String c r =>
      if afterBlank && Ascii.eqb c "#" then EmptyString
      else String c (beforeComment (isBlank c) r)
  end.

(** The characters that, in first place, make a value something other than
    a plain scalar: a sequence entry, a key, a flow collection, a comment,
    an anchor, an alias, a tag, a block scalar, a quoted scalar, a
    directive, or a reserved character. *)
Definition indicators : list ascii :=
  ascii_of_nat 34 :: list_ascii_of_string "-?:,[]{}#&!|>'%@`*".

Definition isIndicator (c : ascii) : bool := existsb (Ascii.eqb c) indicators.

(** A colon that ends a mapping key: one followed by a blank or by the end
    of the line. *)
Fixpoint hasKeyColon (s : string) : bool :=
  match s with
  | EmptyString => false
  | String c r =>
      Ascii.eqb c ":"
      && match r with
         | EmptyString => true
         | String d _ => isBlank d
         end
      || hasKeyColon r
  end.

Definition isPrintable (c : ascii) : bool :=
  let n := nat_of_ascii c in ((32 <=? n) && (n <=? 126))%nat.

Fixpoint allPrintable (s : string) : bool :=
  match s with
  | EmptyString => true
  | String c r => isPrintable c && allPrintable r
  end.

(** Plain scalars that may resolve to a number, a boolean, null or a merge
    key instead of a string: they start with a digit, a sign, a dot, a
    tilde, an equals sign or an angle, or are one of the reserved words. *)
Definition typedStart (c : ascii) : bool :=
  isDigit c || existsb (Ascii.eqb c) (list_ascii_of_string "+.~=<").

Definition reservedWords : list string :=
  ["null"; "true"; "false"; "yes"; "no"; "on"; "off"; "y"; "n"].

(** The string a one-line value stands for, where that is certain:
    [Some t] when the value is a plain scalar that every YAML reader takes as
    the string [t], which is the value without its comment and without the
    blanks around it.  [None] when the value is empty, is not a plain scalar,
    holds a key colon, may resolve to another type than a string, or has a
    byte outside printable ASCII. *)
Definition plainScalar (raw : string) : option string :=
  let t := trimBlanks (beforeComment true raw) in
  match t with
  | EmptyString => None
  | String c _ =>
      if isIndicator c || hasKeyColon t || negb (allPrintable t)
         || typedStart c || includes reservedWords (toLowerCase t)
      then None
      else Some t
  end.

(** The value of [key] on a line [key: value]; the colon of a key is
    followed by a blank or ends the line. *)
Definition valueOn (key line : string) : option (option string) :=
  match dropPrefix (key ++ ":") (dropSpaces line) with
  | Some EmptyString => Some None
  | Some (String c r) =>
      if isBlank c then Some (plainScalar (String c r)) else None
  | None => None
  end.

Fixpoint valuesOf (key : string) (ls : list string) : list (option string) :=
  match ls with
  | [] => []
  | l :: r =>
      match valueOn key l with
      | Some v => v :: valuesOf key r
      | None => valuesOf key r
      end
  end.

(** The container names the descriptor sets, one per [container_name] line:
    the string set there, or [None] where the line does not set a certain
    string. *)
Definition containerNames (content : string) : list (option string) :=
  valuesOf "container_name" (textLines content).

(** *** The event log *)

Definition isMutation (e : Event) : bool :=
  match e with
  | MkdirSync _ | Chdir _ | ExecSync _ | WriteFileSync _ _ => true
  | Asked _ | ExistsSync _ _ | ReadFileSync _ => false
  end.

Definition mutations (evs : list Event) : list Event := filter isMutation evs.

Definition writeTo (path : string) (e : Event) : option string :=
  match e with
  | WriteFileSync p content => if String.eqb p path then Some content else None
  | _ => None
  end.

(** The contents written to [path], in order. *)
Fixpoint written (path : string) (evs : list Event) : list string :=
  match evs with
  | [] => []
  | e :: r =>
      match writeTo path e with
      | Some content => content :: written path r
      | None => written path r
      end
  end.

Fixpoint checkedPaths (evs : list Event) : list string :=
  match evs with
  | [] => []
  | ExistsSync p _ :: r => p :: checkedPaths r
  | _ :: r => checkedPaths r
  end.

(** The directory the process changes into: where the project goes. *)
Fixpoint projectDirectory (evs : list Event) : option string :=
  match evs with
  | [] => None
  | Chdir p :: _ => Some p
  | _ :: r => projectDirectory r
  end.

(** A name that can stand for one directory entry: not empty, not a
    reference to the directory itself or its parent, and free of path
    separators and NUL. *)
Fixpoint plainChars (s : string) : bool :=
  match s with
  | EmptyString => true
  | String c r =>
      negb (Ascii.eqb c "/") && negb (Ascii.eqb c (ascii_of_nat 0)) && plainChars r
  end.

Definition filesystemSafe (name : string) : bool :=
  negb (String.eqb name "") && negb (String.eqb name ".")
  && negb (String.eqb name "..") && plainChars name.

(** *** The calls of a run that completes, written out *)

Definition devInstall (isTS : bool) : string :=
  if isTS
  then "npm install --save-dev typescript ts-node ts-node-dev @types/node @types/express @types/cors @types/cookie-parser @types/morgan @types/bcrypt @types/swagger-ui-express @types/uuid"
  else "npm install --save-dev nodemon".

(** The three npm commands of a run all succeed. *)
Definition toolsOk (host : Host) (isTS : bool) (packages : list string) : bool :=
  toolSucceeds host "npm init -y"
  && toolSucceeds host ("npm install " ++ join " " packages)
  && toolSucceeds host (devInstall isTS).

Definition deploymentPlan (isTS : bool) (projectName port : string)
    (deploymentHelpers : list string) : list Event :=
  ((if includes deploymentHelpers "dockerfile"
    then [WriteFileSync "Dockerfile" (dockerfileContent isTS port)] else [])
   ++ (if includes deploymentHelpers "compose"
       then [WriteFileSync "docker-compose.yml" (dockerComposeContent projectName port)]
       else [])
   ++ (if includes deploymentHelpers "jenkins"
       then [WriteFileSync "Jenkinsfile" (jenkinsfileContent isTS projectName)] else [])
   ++ (if includes deploymentHelpers "github"
       then [MkdirSync ".github/workflows";
             WriteFileSync ".github/workflows/ci.yml" (ciContent isTS)]
       else []))%list.

Definition pkgPath (host : Host) (projectName : string) : string :=
  path_join [cwdAfter host projectName; "package.json"].

Definition corePlan (host : Host) (isTS isESM : bool) (projectName : string)
    (packages : list string) (port : string) (pkgJson : json) : list Event :=
  ([ExecSync "npm init -y"; ExecSync ("npm install " ++ join " " packages)]
   ++ (if isTS
       then [ExecSync (devInstall true);
             WriteFileSync "tsconfig.json" (stringify2 (tsconfig isESM))]
       else [ExecSync (devInstall false)])
   ++ map MkdirSync folders
   ++ [WriteFileSync ".env" (envContent port);
       ReadFileSync (pkgPath host projectName);
       WriteFileSync (pkgPath host projectName) (stringify2 pkgJson)]
   ++ map (fun f => WriteFileSync (fst f) (snd f)) (sourceFiles isTS isESM port))%list.

(** Whether some write went to [path]. *)
Definition emitted (path : string) (evs : list Event) : bool :=
  match written path evs with
  | [] => false
  | _ :: _ => true
  end.

Definition withHelpers (deploymentHelpers : list string) (a : Answers) : Answers :=
  {| projectName := projectName a; language := language a;
     moduleSystem := moduleSystem a; packages := packages a;
     port := port a; deploymentHelpers := deploymentHelpers |}.

Fixpoint isSuffix (suffix s : string) : bool :=
  String.eqb s suffix
  || match s with
     | EmptyString => false
     | String _ r => isSuffix suffix r
     end.

(** [o.a.b] on JSON values. *)
Definition get2 (a b : string) (v : json) : option json :=
  match get a v with
  | Some w => get b w
  | None => None
  end.

Definition deploymentPaths : list string :=
  ["Dockerfile"; "docker-compose.yml"; "Jenkinsfile"; ".github/workflows/ci.yml"].

(** *** Which kinds of events a script can emit *)

Definition isQuestion (e : Event) : Prop :=
  match e with Asked _ => True | _ => False end.


Definition emitsOnly {A} (P : Event -> Prop) (m : Script A) : Prop :=
  forall u, Forall P (events (m u)).

End Observe.

(** ** Sample surroundings and sessions *)

Module Scenario.
Import JS Json Script Inquirer Cli.

(** The manifest [npm init -y] writes for a fresh directory. *)
Definition freshManifest (name : string) : json :=
  JObj [ ("name", JStr name);
         ("version", JStr "1.0.0");
         ("description", JStr "");
         ("main", JStr "index.js");
         ("scripts", JObj [("test", JStr ("echo " ++ dq ++ "Error: no test specified" ++ dq ++ " && exit 1"))]);
         ("keywords", JArr []);
         ("author", JStr "");
         ("license", JStr "ISC") ].

(** A machine where every command succeeds; [taken] tells which names
    exist in the starting directory. *)
Definition machine (taken : string -> bool) (name : string) : Host :=
  {| existsOnDisk := taken;
     cwdAfter := fun p => "/home/dev/" ++ p;
     toolSucceeds := fun _ => true;
     manifest := freshManifest name |}.

Definition nothingTaken : string -> bool := fun _ => false.
Definition everythingTaken : string -> bool := fun _ => true.

(** The session of the specification's scenario: demo-app, TypeScript,
    ES modules, express and dotenv, port 4000, a Dockerfile. *)
Definition demoSession : User :=
  {| typed := ["demo-app"; "4000"];
     chosen := ["TypeScript"; "ES Modules (import/export)"];
     ticked := [["express"; "dotenv"]; ["dockerfile"]] |}.

Definition demoAnswers : Answers :=
  {| projectName := "demo-app"; language := "TypeScript";
     moduleSystem := "ES Modules (import/export)";
     packages := ["express"; "dotenv"]; port := "4000";
     deploymentHelpers := ["dockerfile"] |}.

(** The same session when demo-app exists and the user cancels. *)
Definition cancelSession : User :=
  {| typed := ["demo-app"; "4000"];
     chosen := ["TypeScript"; "ES Modules (import/export)"; "Cancel setup"];
     ticked := [["express"; "dotenv"]; ["dockerfile"]] |}.


(** A session that names the project with a path out of the starting
    directory. *)
Definition outsideSession : User :=
  {| typed := ["../outside"; "3000"];
     chosen := ["JavaScript"; "ES Modules (import/export)"];
     ticked := [["express"]; []] |}.

(** A session that only presses return at the two input prompts. *)
Definition defaultsSession : User :=
  {| typed := [""; ""];
     chosen := ["JavaScript"; "ES Modules (import/export)"];
     ticked := [["express"]; []] |}.

(** The demo session with the port typed with a leading zero, and the
    Dockerfile and compose helpers. *)
Definition leadingZeroSession : User :=
  {| typed := ["demo-app"; "080"];
     chosen := ["TypeScript"; "ES Modules (import/export)"];
     ticked := [["express"; "dotenv"]; ["dockerfile"; "compose"]] |}.

(** White space outside ASCII, in UTF-8: U+00A0, U+FEFF, U+2028, U+3000. *)
Definition utf8 (bytes : list nat) : string :=
  string_of_list_ascii (map ascii_of_nat bytes).

Definition noBreakSpace : string := utf8 [194; 160].
Definition byteOrderMark : string := utf8 [239; 187; 191].
Definition lineSeparator : string := utf8 [226; 128; 168].
Definition ideographicSpace : string := utf8 [227; 128; 128].

(** A letter outside ASCII, U+00E9, which is no white space. *)
Definition eAcute : string := utf8 [195; 169].

(** The demo session with a port text that goes on after its digits, and
    no deployment helper. *)
Definition trailingPort : string := "80; import './x.ts'".

Definition trailingPortSession : User :=
  {| typed := ["demo-app"; trailingPort];
     chosen := ["TypeScript"; "ES Modules (import/export)"];
     ticked := [["express"; "dotenv"]; []] |}.

End Scenario.

(** ** Further readings of the log and of the generated texts *)

Module Survey.
Import JS Json Script Inquirer Templates Cli Observe.

(** The paths written to, in order. *)
Fixpoint writtenPaths (evs : list Event) : list string :=
  match evs with
  | [] => []
  | WriteFileSync p _ :: r => p :: writtenPaths r
  | _ :: r => writtenPaths r
  end.

(** The calls up to the point where the manifest is read: what a run has
    done when the manifest cannot be amended. *)
Definition planBeforeManifest (host : Host) (isTS isESM : bool) (projectName : string)
    (packages : list string) (port : string) : list Event :=
  ([ExecSync "npm init -y"; ExecSync ("npm install " ++ join " " packages)]
   ++ (if isTS
       then [ExecSync (devInstall true);
             WriteFileSync "tsconfig.json" (stringify2 (tsconfig isESM))]
       else [ExecSync (devInstall false)])
   ++ map MkdirSync folders
   ++ [WriteFileSync ".env" (envContent port);
       ReadFileSync (pkgPath host projectName)])%list.

Definition keys (fs : list (string * json)) : list string := map fst fs.

Definition withName (name : string) (a : Answers) : Answers :=
  {| projectName := name; language := language a;
     moduleSystem := moduleSystem a; packages := packages a;
     port := port a; deploymentHelpers := deploymentHelpers a |}.

(** *** The lines of the line-oriented files *)

Definition dockerfileLines (isTS : bool) (port : string) : list string :=
  [ "# Dockerfile";
    "FROM node:20-alpine";
    "";
    "WORKDIR /app";
    "";
    "COPY package*.json ./";
    "RUN npm install";
    "";
    "COPY . .";
    "";
    (if isTS then "RUN npm run build" else "");
    "";
    "EXPOSE " ++ port;
    "";
    "CMD [" ++ dq ++ "npm" ++ dq ++ ", " ++ dq ++ "start" ++ dq ++ "]";
    "" ].

Definition envLines (port : string) : list string :=
  [ "PORT=" ++ port;
    "DB_URI=";
    "API_VERSION=v1";
    "" ].

Definition ciLines (isTS : bool) : list string :=
  [ "name: Node.js CI";
    "";
    "on:";
    "  push:";
    "    branches: [ " ++ dq ++ "main" ++ dq ++ " ]";
    "  pull_request:";
    "    branches: [ " ++ dq ++ "main" ++ dq ++ " ]";
    "";
    "jobs:";
    "  build:";
    "    runs-on: ubuntu-latest";
    "";
    "    steps:";
    "    - uses: actions/checkout@v3";
    "    - name: Use Node.js";
    "      uses: actions/setup-node@v3";
    "      with:";
    "        node-version: 20";
    "    - run: npm install";
    "    " ++ (if isTS then "- run: npm run build" else "");
    "    - run: npm test";
    "" ].

Definition jenkinsfileLines (isTS : bool) (projectName : string) : list string :=
  app
   [ "pipeline {";
     "  agent any";
     "";
     "  stages {";
     "    stage('Checkout') {";
     "      steps {";
     "        checkout scm";
     "      }";
     "    }";
     "";
     "    stage('Install') {";
     "      steps {";
     "        sh 'npm install'";
     "      }";
     "    }";
     "" ]
  (app (if isTS
       then [ "    ";
              "    stage('Build') {";
              "      steps {";
              "        sh 'npm run build'";
              "      }";
              "    }" ]
       else [ "    " ])
      [ "";
        "    stage('Test') {";
        "      steps {";
        "        sh 'npm test || echo " ++ dq ++ "No tests configured" ++ dq ++ "'";
        "      }";
        "    }";
        "";
        "    stage('Docker Build & Push') {";
        "      steps {";
        "        sh 'docker build -t " ++ toLowerCase projectName ++ ":latest .'";
        "      }";
        "    }";
        "  }";
        "}";
        "" ]).

(** A text of ASCII characters only: every byte is below 128.  On such
    a text [toLowerCase] is the built-in. *)
Fixpoint asciiOnly (s : string) : bool :=
  match s with
  | EmptyString => true
  | String c r => (nat_of_ascii c <? 128)%nat && asciiOnly r
  end.

Definition isUpper (c : ascii) : bool :=
  let n := nat_of_ascii c in ((65 <=? n) && (n <=? 90))%nat.

Fixpoint hasUpper (s : string) : bool :=
  match s with
  | EmptyString => false
  | String c r => isUpper c || hasUpper r
  end.

(** *** Where a relative import points *)

(** [s] without [suffix] at its end. *)
Fixpoint stripSuffix (suffix s : string) : string :=
  if String.eqb s suffix then EmptyString
  else match s with
       | EmptyString => EmptyString
       | String c r => String c (stripSuffix suffix r)
       end.

(** The generated file a specifier of a file in src/ names: the stem
    under src/, with the extension of the language.  (Under TypeScript
    with ES modules a specifier in .js names the .ts source.) *)
Definition importTarget (isTS isESM : bool) (spec : string) : option string :=
  match dropPrefix "./" spec with
  | Some rest => Some ("src/" ++ stripSuffix (esmExt isESM) rest ++ "." ++ ext isTS)
  | None => None
  end.

(** *** The words of a JavaScript text *)

Definition isWordChar (c : ascii) : bool :=
  let n := nat_of_ascii c in
  ((48 <=? n) && (n <=? 57))%nat || ((65 <=? n) && (n <=? 90))%nat
  || ((97 <=? n) && (n <=? 122))%nat || (n =? 95)%nat || (n =? 36)%nat.

(** The word in progress, last character first, as a list of words. *)
Definition flush (cur : string) : list string :=
  match cur with
  | EmptyString => []
  | _ => [rev_string EmptyString cur]
  end.

(** The words that end inside [s], when [cur] is in progress at its start. *)
Fixpoint closed (cur : string) (s : string) : list string :=
  match s with
  | EmptyString => []
  | String c r =>
      if isWordChar c then closed (String c cur) r
      else (flush cur ++ closed EmptyString r)%list
  end.

(** The word in progress at the end of [s]. *)
Fixpoint curAfter (cur : string) (s : string) : string :=
  match s with
  | EmptyString => cur
  | String c r => if isWordChar c then curAfter (String c cur) r else curAfter EmptyString r
  end.

(** The maximal runs of letters, digits, underscore and dollar. *)
Definition words (s : string) : list string :=
  (closed EmptyString s ++ flush (curAfter EmptyString s))%list.

Definition mentions (word content : string) : bool := includes (words content) word.

(** *** Directories before files *)

(** The text before the last occurrence of [d], if there is one. *)
Fixpoint beforeLast (d : ascii) (s : string) : option string :=
  match s with
  | EmptyString => None
  | String c r =>
      match beforeLast d r with
      | Some t => Some (String c t)
      | None => if Ascii.eqb c d then Some EmptyString else None
      end
  end.

(** The directory part of a path; empty for a bare file name. *)
Definition dirname (path : string) : string :=
  match beforeLast "/" path with
  | Some d => d
  | None => EmptyString
  end.

(** [mkdirSync(m, { recursive: true })] makes [m] and everything above it. *)
Definition insideMade (made : list string) (d : string) : bool :=
  existsb (fun m => String.eqb m d || startsWith m (d ++ "/")) made.

Fixpoint madeAfter (made : list string) (evs : list Event) : list string :=
  match evs with
  | [] => made
  | MkdirSync d :: r => madeAfter (d :: made) r
  | _ :: r => madeAfter made r
  end.

(** Every write goes to a directory made by an earlier call, to the
    current directory, or to [home] (the current directory by its
    absolute name). *)
Fixpoint dirsFirst (home : string) (made : list string) (evs : list Event) : bool :=
  match evs with
  | [] => true
  | MkdirSync d :: r => dirsFirst home (d :: made) r
  | WriteFileSync p _ :: r =>
      (insideMade made (dirname p) || String.eqb (dirname p) "" || String.eqb (dirname p) home)
      && dirsFirst home made r
  | _ :: r => dirsFirst home made r
  end.

(** *** Packages and commands *)

(** The commands run as child processes, in order. *)
Fixpoint commands (evs : list Event) : list string :=
  match evs with
  | [] => []
  | ExecSync c :: r => c :: commands r
  | _ :: r => commands r
  end.

Definition withPackages (packages : list string) (a : Answers) : Answers :=
  {| projectName := projectName a; language := language a;
     moduleSystem := moduleSystem a; packages := packages;
     port := port a; deploymentHelpers := deploymentHelpers a |}.

(** The paths of the source files. *)
Definition sourcePaths (isTS : bool) : list string :=
  [ loggerPath isTS; dbPath isTS; swaggerPath isTS; transactionIdMiddlewarePath isTS;
    loggerConsolePath isTS; errorHandlerPath isTS; healthCheckRoutePath isTS;
    appFile isTS; serverFile isTS ].

(** A path that is none of the other files a run writes. *)
Definition sourceOnly (path : string) : bool :=
  negb (String.eqb path "tsconfig.json") && negb (String.eqb path ".env")
  && negb (isSuffix "/package.json" path)
  && negb (existsb (String.eqb path) deploymentPaths).

(** The packages the generated sources load. *)
Definition loadedPackages : list string :=
  [ "express"; "cors"; "cookie-parser"; "uuid"; "swagger-ui-express"; "winston"; "dotenv" ].

(** Whether a text begins with a decimal digit. *)
Definition startsWithDigit (s : string) : bool :=
  match s with
  | EmptyString => false
  | String c _ => isDigit c
  end.

(** A script that does not look at the answers of the user: its result
    and its calls are the same for every user, who is left as found. *)
Definition ignoresUser {A} (m : Script A) : Prop :=
  exists r evs, forall u, m u = (r, u, evs).

(** A machine where every command succeeds and nothing exists, with the
    given manifest. *)
Definition bareMachine (m : json) : Host :=
  {| existsOnDisk := fun _ => false;
     cwdAfter := fun p => "/home/dev/" ++ p;
     toolSucceeds := fun _ => true;
     manifest := m |}.

(** A machine where the named command fails. *)
Definition brokenMachine (failing : string) : Host :=
  {| existsOnDisk := fun _ => false;
     cwdAfter := fun p => "/home/dev/" ++ p;
     toolSucceeds := fun c => negb (String.eqb c failing);
     manifest := JObj [] |}.

End Survey.

(** * Verification *)

Import JS Json Script Inquirer Templates Cli Observe Scenario.

(** ** Sanity checks of the built-ins *)

Example parseInt10_examples :
  parseInt10 "3000" = Int 3000 /\ parseInt10 "  42px" = Int 42
  /\ parseInt10 "-7" = Int (-7) /\ parseInt10 "0x1F" = Int 0
  /\ parseInt10 "px" = NaN /\ parseInt10 "" = NaN.
Proof. repeat split; reflexivity. Qed.

Example trim_example : trim (nl ++ "  a b " ++ nl) = "a b".
Proof. reflexivity. Qed.

(** White space outside ASCII is skipped as well, at both ends. *)
Example white_space_outside_ascii :
  parseInt10 (noBreakSpace ++ "80") = Int 80
  /\ parseInt10 (byteOrderMark ++ " " ++ lineSeparator ++ "+7") = Int 7
  /\ parseInt10 (eAcute ++ "80") = NaN
  /\ validates portQ (noBreakSpace ++ "80") = true
  /\ trim (ideographicSpace ++ "a" ++ eAcute ++ noBreakSpace ++ nl) = "a" ++ eAcute.
Proof. repeat split; vm_compute; reflexivity. Qed.

Example stringify2_example :
  stringify2 (JObj [("a", JArr [JStr "x"; JBool true]); ("b", JObj [])])
  = "{" ++ nl ++ "  " ++ dq ++ "a" ++ dq ++ ": [" ++ nl
    ++ "    " ++ dq ++ "x" ++ dq ++ "," ++ nl ++ "    true" ++ nl ++ "  ]," ++ nl
    ++ "  " ++ dq ++ "b" ++ dq ++ ": {}" ++ nl ++ "}".
Proof. reflexivity. Qed.

Example textLines_example :
  textLines ("a" ++ nl ++ nl ++ "b" ++ nl) = ["a"; ""; "b"; ""].
Proof. reflexivity. Qed.

Example relativeImports_example :
  relativeImports "import a from './x.js'; const b = require('../y'); f('z')"
  = ["./x.js"; "../y"]
  /\ map suffixOf ["./x.js"; "../y"; "./a.b/c"] = [".js"; ""; ""].
Proof. split; reflexivity. Qed.

(** ** Port validation *)

Lemma validatePort_spec (input : string) :
  validatePort input = Valid <->
  exists n : Z, parseInt10 input = Int n /\ (0 < n < 65536)%Z.
Proof.
  unfold validatePort.
  destruct (parseInt10 input) as [|n]; cbn.
  - split; [discriminate | intros (n & H & _); discriminate].
  - destruct (0 <? n)%Z eqn:Hlo; destruct (n <? 65536)%Z eqn:Hhi; cbn;
      split; intro H;
      try discriminate;
      try (exists n; split; [reflexivity | lia]);
      try reflexivity;
      destruct H as (m & Hm & Hr); injection Hm as <-; lia.
Qed.

(** C7. The port question accepts exactly the inputs whose parsed integer
    lies strictly between 0 and 65536; in particular 1 and 65535 are
    accepted, 0 and 65536 are rejected. *)
Theorem port_validation_accepts_exactly_open_range :
  (forall input : string,
      validates portQ input = true <->
      exists n : Z, parseInt10 input = Int n /\ (0 < n < 65536)%Z)
  /\ validates portQ "1" = true
  /\ validates portQ "65535" = true
  /\ validates portQ "0" = false
  /\ validates portQ "65536" = false.
Proof.
  split; [| repeat split; reflexivity].
  intro input. rewrite <- validatePort_spec.
  unfold validates; cbn.
  destruct (validatePort input); split; congruence.
Qed.

(** ** The logger *)

(** C9. The logger body depends on the module system only: for either
    module system the JavaScript body is the TypeScript body, character
    for character; the language only picks the file name. *)
Theorem logger_body_ignores_language :
  LOGGER_JS_ESM = LOGGER_TS_ESM
  /\ LOGGER_JS_CJS = LOGGER_TS_CJS
  /\ (forall isESM : bool, loggerContent false isESM = loggerContent true isESM)
  /\ loggerContent true true <> loggerContent true false
  /\ loggerPath true = "src/utils/logger.ts"
  /\ loggerPath false = "src/utils/logger.js"
  /\ (forall (isTS isESM : bool) (port : string),
        hd_error (sourceFiles isTS isESM port)
        = Some (loggerPath isTS, loggerContent isTS isESM)).
Proof.
  repeat split; try reflexivity.
  - intros []; reflexivity.
  - vm_compute. discriminate.
Qed.

(** ** What a run does, step by step *)

Lemma forEach_events {A} (f : A -> Script unit) (g : A -> Event) (l : list A) (u : User) :
  (forall x v, f x v = (Done tt, v, [g x])) ->
  forEach l f u = (Done tt, u, map g l).
Proof.
  intro Hf. revert u.
  induction l as [|x l IH]; intro u; cbn.
  - reflexivity.
  - unfold bind. rewrite Hf, IH. reflexivity.
Qed.

Lemma deployment_run isTS projectName port deploymentHelpers u :
  deployment isTS projectName port deploymentHelpers u
  = (Done tt, u, deploymentPlan isTS projectName port deploymentHelpers).
Proof.
  unfold deployment, deploymentPlan, when, writeFileSync, mkdirSync, bind, emit, ret.
  destruct (includes deploymentHelpers "dockerfile");
    destruct (includes deploymentHelpers "compose");
    destruct (includes deploymentHelpers "jenkins");
    destruct (includes deploymentHelpers "github"); reflexivity.
Qed.

(** [generate] completes exactly when the three npm commands succeed and
    the manifest can be amended; its calls are then the core plan followed
    by the deployment plan, and no answer has been consumed. *)
Lemma generate_done host isTS isESM projectName packages port deploymentHelpers u u' evs :
  generate host isTS isESM projectName packages port deploymentHelpers u = (Done tt, u', evs) ->
  exists pkgJson,
    updatePackageJson isTS isESM (manifest host) = Some pkgJson
    /\ toolsOk host isTS packages = true
    /\ u' = u
    /\ evs = (corePlan host isTS isESM projectName packages port pkgJson
              ++ deploymentPlan isTS projectName port deploymentHelpers)%list.
Proof.
  unfold generate, corePlan, pkgPath, toolsOk.
  unfold execSync at 1 2. unfold bind at 1 2 3 4. unfold emit at 1 2.
  destruct (toolSucceeds host "npm init -y"); [| discriminate].
  destruct (toolSucceeds host ("npm install " ++ join " " packages)); [| discriminate].
  cbv beta iota delta [ret throw].
  unfold bind at 1.
  destruct isTS; cbv beta iota delta [devInstall].
  - unfold execSync, writeFileSync. unfold bind at 1 2. unfold emit at 1.
    match goal with |- context [toolSucceeds host ?c] => destruct (toolSucceeds host c) end;
      [| discriminate].
    cbv beta iota delta [ret throw emit].
    unfold bind at 1.
    rewrite (forEach_events _ MkdirSync) by reflexivity.
    unfold bind at 1 2 3. cbv beta iota delta [emit].
    destruct (updatePackageJson true isESM (manifest host)) as [pkgJson|];
      [| discriminate].
    cbv beta iota delta [orThrow ret].
    unfold bind at 1 2.
    rewrite (forEach_events _ (fun f => WriteFileSync (fst f) (snd f))) by reflexivity.
    rewrite deployment_run.
    intro H. injection H as <- <-. exists pkgJson. repeat split; reflexivity.
  - unfold execSync, writeFileSync. unfold bind at 1. unfold emit at 1.
    match goal with |- context [toolSucceeds host ?c] => destruct (toolSucceeds host c) end;
      [| discriminate].
    cbv beta iota delta [ret throw emit].
    unfold bind at 1.
    rewrite (forEach_events _ MkdirSync) by reflexivity.
    unfold bind at 1 2 3. cbv beta iota delta [emit].
    destruct (updatePackageJson false isESM (manifest host)) as [pkgJson|];
      [| discriminate].
    cbv beta iota delta [orThrow ret].
    unfold bind at 1 2.
    rewrite (forEach_events _ (fun f => WriteFileSync (fst f) (snd f))) by reflexivity.
    rewrite deployment_run.
    intro H. injection H as <- <-. exists pkgJson. repeat split; reflexivity.
Qed.

Lemma generate_completes host isTS isESM projectName packages port deploymentHelpers pkgJson u :
  toolsOk host isTS packages = true ->
  updatePackageJson isTS isESM (manifest host) = Some pkgJson ->
  generate host isTS isESM projectName packages port deploymentHelpers u
  = (Done tt, u,
     (corePlan host isTS isESM projectName packages port pkgJson
      ++ deploymentPlan isTS projectName port deploymentHelpers)%list).
Proof.
  intros Htools Hpkg.
  unfold toolsOk in Htools.
  apply andb_prop in Htools as [Htools H3].
  apply andb_prop in Htools as [H1 H2].
  unfold generate, corePlan, pkgPath.
  unfold execSync at 1 2. rewrite H1, H2, Hpkg.
  unfold bind at 1 2 3 4. cbv beta iota delta [emit ret].
  unfold bind at 1.
  destruct isTS; cbv beta iota delta [devInstall] in H3.
  - unfold writeFileSync, execSync. rewrite H3.
    unfold bind at 1 2. cbv beta iota delta [emit ret].
    unfold bind at 1.
    rewrite (forEach_events _ MkdirSync) by reflexivity.
    unfold bind at 1 2 3. cbv beta iota delta [emit orThrow ret].
    unfold bind at 1 2.
    rewrite (forEach_events _ (fun f => WriteFileSync (fst f) (snd f))) by reflexivity.
    rewrite deployment_run. reflexivity.
  - unfold writeFileSync, execSync. rewrite H3.
    unfold bind at 1. cbv beta iota delta [emit ret].
    unfold bind at 1.
    rewrite (forEach_events _ MkdirSync) by reflexivity.
    unfold bind at 1 2 3. cbv beta iota delta [emit orThrow ret].
    unfold bind at 1 2.
    rewrite (forEach_events _ (fun f => WriteFileSync (fst f) (snd f))) by reflexivity.
    rewrite deployment_run. reflexivity.
Qed.


(** *** Which kinds of events a script emits *)

Lemma emitsOnly_ret {A} P (a : A) : emitsOnly P (ret a).
Proof. intro u. constructor. Qed.

Lemma emitsOnly_exit {A} P code : emitsOnly P (@exit A code).
Proof. intro u. constructor. Qed.



Lemma emitsOnly_bind {A B} P (m : Script A) (k : A -> Script B) :
  emitsOnly P m -> (forall a, emitsOnly P (k a)) -> emitsOnly P (bind m k).
Proof.
  intros Hm Hk u. unfold bind.
  specialize (Hm u).
  destruct (m u) as [[[a|c|e|] u1] evs1]; cbn in *; try exact Hm.
  specialize (Hk a u1).
  destruct (k a u1) as [[r u2] evs2]; cbn in *.
  apply Forall_app. split; assumption.
Qed.



Lemma inputLoop_asks q lines :
  Forall isQuestion (snd (inputLoop q lines)).
Proof.
  induction lines as [|line rest IH]; cbn.
  - repeat constructor.
  - destruct (validates q (filterInput q line)); cbn.
    + repeat constructor.
    + destruct (inputLoop q rest) as [[r rest'] evs]; cbn in *.
      constructor; [exact I | exact IH].
Qed.

Lemma askInput_asks q : emitsOnly isQuestion (askInput q).
Proof.
  intro u. unfold askInput.
  pose proof (inputLoop_asks q (typed u)) as H.
  destruct (inputLoop q (typed u)) as [[r rest] evs]. exact H.
Qed.

Lemma askList_asks q : emitsOnly isQuestion (askList q).
Proof.
  intro u. unfold askList.
  destruct (listLoop q (chosen u)) as [r rest]. cbn. repeat constructor.
Qed.

Lemma askCheckbox_asks q : emitsOnly isQuestion (askCheckbox q).
Proof.
  intro u. unfold askCheckbox.
  destruct (ticked u); cbn; repeat constructor.
Qed.

Lemma promptAnswers_asks : emitsOnly isQuestion promptAnswers.
Proof.
  unfold promptAnswers.
  repeat (apply emitsOnly_bind; [| intro]);
    auto using askInput_asks, askList_asks, askCheckbox_asks, emitsOnly_ret.
Qed.






Lemma questions_are_not_mutations evs :
  Forall isQuestion evs ->
  mutations evs = [] /\ checkedPaths evs = [] /\ projectDirectory evs = None.
Proof.
  induction 1 as [|e evs He _ IH]; [repeat split |].
  destruct e; try contradiction. cbn. exact IH.
Qed.



Lemma mutations_app a b : mutations (a ++ b) = (mutations a ++ mutations b)%list.
Proof. apply filter_app. Qed.

Lemma written_app path a b : written path (a ++ b) = (written path a ++ written path b)%list.
Proof.
  induction a as [|e a IH]; [reflexivity |].
  cbn. destruct (writeTo path e); cbn; rewrite IH; reflexivity.
Qed.

Lemma projectDirectory_app_none a b :
  projectDirectory a = None -> projectDirectory (a ++ b) = projectDirectory b.
Proof.
  induction a as [|e a IH]; [reflexivity |].
  destruct e; cbn; auto; discriminate.
Qed.

(** *** The folder conflict *)

Lemma resolveConflict_absent host name u :
  existsOnDisk host name = false ->
  resolveConflict host name u = (Done name, u, [ExistsSync name false]).
Proof.
  intro H. unfold resolveConflict, existsSync, bind, emit, ret. rewrite H. reflexivity.
Qed.

Lemma resolveConflict_cancel host name u rest :
  existsOnDisk host name = true ->
  listLoop (conflictQ name) (chosen u) = (Done "Cancel setup", rest) ->
  resolveConflict host name u
  = (Exited 1, {| typed := typed u; chosen := rest; ticked := ticked u |},
     [ExistsSync name true; Asked (l_message (conflictQ name))]).
Proof.
  intros H Hpick.
  unfold resolveConflict, existsSync, bind, emit, ret, askList. rewrite H, Hpick.
  reflexivity.
Qed.

Lemma resolveConflict_overwrite host name u rest :
  existsOnDisk host name = true ->
  listLoop (conflictQ name) (chosen u) = (Done "Continue (overwrite)", rest) ->
  resolveConflict host name u
  = (Done name, {| typed := typed u; chosen := rest; ticked := ticked u |},
     [ExistsSync name true; Asked (l_message (conflictQ name))]).
Proof.
  intros H Hpick.
  unfold resolveConflict, existsSync, bind, emit, ret, askList. rewrite H, Hpick.
  reflexivity.
Qed.


(** Whatever happens in it, the conflict step looks at one path, the name
    it was given, and changes nothing. *)
Lemma resolveConflict_events host name u :
  exists questions,
    events (resolveConflict host name u)
    = ExistsSync name (existsOnDisk host name) :: questions
    /\ Forall isQuestion questions.
Proof.
  assert (Hk : forall found, emitsOnly isQuestion
    (if found : bool then
       bind (askList (conflictQ name))
         (fun action =>
            if (action =? "Cancel setup")%string then exit 1
            else if (action =? "Choose a different name")%string
                 then askInput (renameQ name) else ret name)
     else ret name)).
  { intros [|]; [| apply emitsOnly_ret].
    apply emitsOnly_bind; [apply askList_asks | intro action].
    destruct (action =? "Cancel setup")%string; [apply emitsOnly_exit |].
    destruct (action =? "Choose a different name")%string;
      [apply askInput_asks | apply emitsOnly_ret]. }
  specialize (Hk (existsOnDisk host name) u).
  unfold resolveConflict, existsSync.
  unfold bind at 1 2. unfold emit, ret at 1.
  cbv beta iota.
  match type of Hk with
  | Forall _ (events ?m) => destruct m as [[r u2] evs2]
  end.
  exists evs2. split; [reflexivity | exact Hk].
Qed.

Lemma inputLoop_nonempty q lines v rest evs :
  i_default q <> "" ->
  inputLoop q lines = (Done v, rest, evs) -> v <> "".
Proof.
  intro Hd. revert rest evs.
  induction lines as [|line more IH]; intros rest evs; cbn.
  - discriminate.
  - destruct (validates q (filterInput q line)).
    + intro H. injection H as <- _ _.
      unfold filterInput. destruct (String.eqb_spec line ""); assumption.
    + destruct (inputLoop q more) as [[r rest'] evs'].
      intro H. injection H as -> _ _. eapply IH. reflexivity.
Qed.

Lemma inputLoop_validates q lines v rest evs :
  inputLoop q lines = (Done v, rest, evs) -> validates q v = true.
Proof.
  revert rest evs.
  induction lines as [|line more IH]; intros rest evs; cbn.
  - discriminate.
  - destruct (validates q (filterInput q line)) eqn:Hv.
    + intro H. injection H as <- _ _. exact Hv.
    + destruct (inputLoop q more) as [[r rest'] evs'].
      intro H. injection H as -> _ _. eapply IH. reflexivity.
Qed.

Lemma append_nonempty (a b : string) : b <> "" -> (a ++ b)%string <> "".
Proof.
  intros Hb. destruct a; cbn; [exact Hb | discriminate].
Qed.

Lemma resolveConflict_nonempty host name u name' u' evs :
  name <> "" ->
  resolveConflict host name u = (Done name', u', evs) -> name' <> "".
Proof.
  intro Hn.
  unfold resolveConflict, existsSync.
  unfold bind at 1 2. unfold emit, ret.
  destruct (existsOnDisk host name).
  - unfold bind, askList.
    destruct (listLoop (conflictQ name) (chosen u)) as [[action| | |] rest];
      try discriminate.
    destruct (action =? "Cancel setup")%string; [discriminate |].
    destruct (action =? "Choose a different name")%string.
    + unfold askInput. cbn [typed].
      destruct (inputLoop (renameQ name) (typed u)) as [[r rest'] evs'] eqn:Hloop.
      intro H. injection H as -> _ _.
      eapply inputLoop_nonempty; [| exact Hloop].
      cbn. apply append_nonempty. discriminate.
    + intro H. injection H as <- _ _. exact Hn.
  - intro H. injection H as <- _ _. exact Hn.
Qed.

(** *** The whole run *)

Lemma scaffold_run host answers u name u1 evs1 :
  resolveConflict host (projectName answers) u = (Done name, u1, evs1) ->
  scaffold host answers u
  = (let '(r, u2, evs2) :=
       generate host (language answers =? "TypeScript")%string
         (startsWith (moduleSystem answers) "ES Modules") name
         (packages answers) (port answers) (deploymentHelpers answers) u1 in
     (r, u2, (evs1 ++ MkdirSync name :: Chdir name :: evs2)%list)).
Proof.
  intro H. unfold scaffold. unfold bind at 1. rewrite H.
  unfold mkdirSync, chdir. unfold bind at 1 2. unfold emit.
  destruct (generate _ _ _ _ _ _ _ u1) as [[r u2] evs2]. reflexivity.
Qed.

Lemma scaffold_stops host answers u r u1 evs1 :
  resolveConflict host (projectName answers) u = (r, u1, evs1) ->
  (forall name, r <> Done name) ->
  events (scaffold host answers u) = evs1
  /\ result (scaffold host answers u) <> Done tt.
Proof.
  intros H Hr.
  split; unfold scaffold; unfold bind at 1; rewrite H;
    (destruct r as [name| | |]; [exfalso; eapply Hr; reflexivity | ..]);
    try reflexivity; unfold result; cbn; discriminate.
Qed.

Lemma main_run host u answers u1 evs0 :
  promptAnswers u = (Done answers, u1, evs0) ->
  main host u
  = (let '(r, u2, evs) := scaffold host answers u1 in (r, u2, (evs0 ++ evs)%list)).
Proof. intro H. unfold main, bind. rewrite H. reflexivity. Qed.

Lemma promptAnswers_demo :
  promptAnswers demoSession
  = (Done demoAnswers, {| typed := []; chosen := []; ticked := [] |},
     [Asked (i_message projectNameQ); Asked (l_message languageQ);
      Asked (l_message moduleSystemQ); Asked (k_message packagesQ);
      Asked (i_message portQ); Asked (k_message deploymentHelpersQ)]).
Proof. reflexivity. Qed.

(** ** Cancelling at the folder conflict *)

(** C6. When the entered project name exists on disk and the user picks
    the cancel entry, the run ends with exit status 1 and has made no
    change: no directory created, no command run, no file written. *)
Theorem cancel_exits_nonzero_before_any_mutation
    host u answers u1 evs0 rest :
  promptAnswers u = (Done answers, u1, evs0) ->
  existsOnDisk host (projectName answers) = true ->
  listLoop (conflictQ (projectName answers)) (chosen u1) = (Done "Cancel setup", rest) ->
  result (main host u) = Exited 1
  /\ (1 <> 0)%Z
  /\ mutations (events (main host u)) = [].
Proof.
  intros Hprompt Hexists Hpick.
  pose proof (resolveConflict_cancel host _ u1 rest Hexists Hpick) as Hres.
  assert (E : main host u
              = (Exited 1, {| typed := typed u1; chosen := rest; ticked := ticked u1 |},
                 (evs0 ++ [ExistsSync (projectName answers) true;
                           Asked (l_message (conflictQ (projectName answers)))])%list)).
  { rewrite (main_run _ _ _ _ _ Hprompt).
    unfold scaffold. unfold bind at 1. rewrite Hres. reflexivity. }
  rewrite E. unfold result, events. cbn [fst snd].
  split; [reflexivity | split; [discriminate |]].
  rewrite mutations_app.
  pose proof (promptAnswers_asks u) as Hq. rewrite Hprompt in Hq. cbn in Hq.
  destruct (questions_are_not_mutations _ Hq) as (-> & _ & _).
  reflexivity.
Qed.

Lemma cancel_exits_nonzero_before_any_mutation_witness :
  result (main (machine everythingTaken "demo-app") cancelSession) = Exited 1
  /\ (1 <> 0)%Z
  /\ mutations (events (main (machine everythingTaken "demo-app") cancelSession)) = [].
Proof.
  eapply (cancel_exits_nonzero_before_any_mutation
            (machine everythingTaken "demo-app") cancelSession).
  - reflexivity.
  - reflexivity.
  - reflexivity.
Defined.

(** ** Renaming at the folder conflict *)



(** ** Deployment files *)

Lemma scaffold_done host answers u u' evs :
  scaffold host answers u = (Done tt, u', evs) ->
  let isTS := (language answers =? "TypeScript")%string in
  let isESM := startsWith (moduleSystem answers) "ES Modules" in
  exists name u1 evs1 pkgJson,
    resolveConflict host (projectName answers) u = (Done name, u1, evs1)
    /\ updatePackageJson isTS isESM (manifest host) = Some pkgJson
    /\ toolsOk host isTS (packages answers) = true
    /\ u' = u1
    /\ evs = (evs1 ++ MkdirSync name :: Chdir name
                   :: corePlan host isTS isESM name (packages answers) (port answers) pkgJson
                   ++ deploymentPlan isTS name (port answers) (deploymentHelpers answers))%list.
Proof.
  intros H isTS isESM.
  destruct (resolveConflict host (projectName answers) u) as [[r u1] evs1] eqn:Hres.
  destruct r as [name|code|error|].
  - rewrite (scaffold_run _ _ _ _ _ _ Hres) in H. fold isTS isESM in H.
    destruct (generate host isTS isESM name (packages answers) (port answers)
                (deploymentHelpers answers) u1) as [[r2 u2] evs2] eqn:Hgen.
    injection H as -> -> <-.
    destruct (generate_done _ _ _ _ _ _ _ _ _ _ Hgen) as (pkgJson & Hup & Htools & -> & ->).
    exists name, u1, evs1, pkgJson. repeat split; assumption || reflexivity.
  - exfalso.
    destruct (scaffold_stops host answers u _ _ _ Hres) as [_ Hne]; [discriminate |].
    apply Hne. rewrite H. reflexivity.
  - exfalso.
    destruct (scaffold_stops host answers u _ _ _ Hres) as [_ Hne]; [discriminate |].
    apply Hne. rewrite H. reflexivity.
  - exfalso.
    destruct (scaffold_stops host answers u _ _ _ Hres) as [_ Hne]; [discriminate |].
    apply Hne. rewrite H. reflexivity.
Qed.

Lemma includes_In (arr : list string) (x : string) :
  includes arr x = true <-> In x arr.
Proof.
  unfold includes. rewrite existsb_exists. split.
  - intros (y & Hy & Heq). apply String.eqb_eq in Heq. subst. exact Hy.
  - intro H. exists x. split; [exact H | apply String.eqb_refl].
Qed.

(** ** Which file a write goes to *)

Lemma isSuffix_app a suffix : isSuffix suffix (a ++ suffix) = true.
Proof.
  induction a as [|c a IH]; cbn -[String.eqb].
  - destruct suffix; cbn -[String.eqb]; rewrite String.eqb_refl; reflexivity.
  - rewrite IH. apply orb_true_r.
Qed.

Lemma eqb_pkgPath q host name :
  isSuffix "/package.json" q = false -> (q =? pkgPath host name)%string = false.
Proof.
  intro H. apply String.eqb_neq. intros ->.
  unfold pkgPath, path_join, join in H. cbn [String.concat] in H.
  rewrite isSuffix_app in H. discriminate.
Qed.

Lemma pkgPath_not_deployment host name p :
  In p deploymentPaths -> (pkgPath host name =? p)%string = false.
Proof.
  intro Hp. rewrite String.eqb_sym. apply eqb_pkgPath.
  cbn in Hp. repeat destruct Hp as [<- | Hp]; try contradiction; reflexivity.
Qed.

Lemma written_questions path evs : Forall isQuestion evs -> written path evs = [].
Proof.
  induction 1 as [|e evs He _ IH]; [reflexivity |].
  destruct e; try contradiction. exact IH.
Qed.

Lemma written_mkdirs path dirs : written path (map MkdirSync dirs) = [].
Proof. induction dirs as [|d dirs IH]; [reflexivity | exact IH]. Qed.

Lemma written_files path (files : list (string * string)) :
  existsb (fun q => String.eqb q path) (map fst files) = false ->
  written path (map (fun f => WriteFileSync (fst f) (snd f)) files) = [].
Proof.
  induction files as [|[q c] files IH]; [reflexivity |].
  cbn. destruct (String.eqb q path); [discriminate |]. exact IH.
Qed.

Lemma sourceFiles_not_deployment isTS isESM port p :
  In p deploymentPaths ->
  existsb (fun q => String.eqb q p) (map fst (sourceFiles isTS isESM port)) = false.
Proof.
  intro Hp. cbn in Hp.
  repeat destruct Hp as [<- | Hp]; try contradiction;
    destruct isTS; reflexivity.
Qed.

Lemma core_writes_no_deployment_path host isTS isESM name packages port pkgJson p :
  In p deploymentPaths ->
  written p (corePlan host isTS isESM name packages port pkgJson) = [].
Proof.
  intro Hp. unfold corePlan.
  rewrite !written_app, written_mkdirs.
  rewrite (written_files _ _ (sourceFiles_not_deployment isTS isESM port p Hp)).
  assert (Hts : written p (if isTS
       then [ExecSync (devInstall true);
             WriteFileSync "tsconfig.json" (stringify2 (tsconfig isESM))]
       else [ExecSync (devInstall false)]) = []).
  { generalize (stringify2 (tsconfig isESM)). intro c.
    cbn in Hp. repeat destruct Hp as [<- | Hp]; try contradiction;
      destruct isTS; reflexivity. }
  rewrite Hts.
  cbn [written writeTo app].
  rewrite (pkgPath_not_deployment host name p Hp).
  generalize (envContent port). intro c.
  cbn in Hp. repeat destruct Hp as [<- | Hp]; try contradiction; reflexivity.
Qed.

Lemma deployment_writes isTS name port helpers :
  written "Dockerfile" (deploymentPlan isTS name port helpers)
  = (if includes helpers "dockerfile" then [dockerfileContent isTS port] else [])
  /\ written "docker-compose.yml" (deploymentPlan isTS name port helpers)
     = (if includes helpers "compose" then [dockerComposeContent name port] else [])
  /\ written "Jenkinsfile" (deploymentPlan isTS name port helpers)
     = (if includes helpers "jenkins" then [jenkinsfileContent isTS name] else [])
  /\ written ".github/workflows/ci.yml" (deploymentPlan isTS name port helpers)
     = (if includes helpers "github" then [ciContent isTS] else []).
Proof.
  unfold deploymentPlan.
  generalize (dockerfileContent isTS port) (dockerComposeContent name port)
             (jenkinsfileContent isTS name) (ciContent isTS).
  intros c1 c2 c3 c4.
  destruct (includes helpers "dockerfile"), (includes helpers "compose"),
    (includes helpers "jenkins"), (includes helpers "github");
    repeat split; reflexivity.
Qed.

Lemma emitted_single (path content : string) (evs : list Event) (arr : list string) (x : string) :
  written path evs = (if includes arr x then [content] else []) ->
  emitted path evs = true <-> In x arr.
Proof.
  intro H. unfold emitted. rewrite H, <- includes_In.
  destruct (includes arr x); split; congruence.
Qed.

Lemma written_scaffold host answers u evs name u1 evs1 pkgJson p :
  resolveConflict host (projectName answers) u = (Done name, u1, evs1) ->
  In p deploymentPaths ->
  let isTS := (language answers =? "TypeScript")%string in
  let isESM := startsWith (moduleSystem answers) "ES Modules" in
  evs = (evs1 ++ MkdirSync name :: Chdir name
              :: corePlan host isTS isESM name (packages answers) (port answers) pkgJson
              ++ deploymentPlan isTS name (port answers) (deploymentHelpers answers))%list ->
  written p evs
  = written p (deploymentPlan isTS name (port answers) (deploymentHelpers answers)).
Proof.
  intros Hres Hp isTS isESM ->.
  destruct (resolveConflict_events host (projectName answers) u) as (qs & Hev & Hqs).
  rewrite Hres in Hev. cbn in Hev. subst evs1.
  rewrite written_app. cbn [written writeTo].
  rewrite (written_questions _ _ Hqs). cbn [app].
  rewrite written_app, core_writes_no_deployment_path by exact Hp.
  reflexivity.
Qed.

(** C8. In a run that completes, each deployment file is written if and
    only if its helper is among the selected ones (Dockerfile for
    dockerfile, docker-compose.yml for compose, Jenkinsfile for jenkins,
    .github/workflows/ci.yml for github).  The calls of the run are those
    of the same run with no helper selected, followed by the deployment
    calls; the run without helpers writes none of the four files, and with
    no helper selected nothing is added. *)
Theorem deployment_files_iff_selected host answers u u' evs :
  scaffold host answers u = (Done tt, u', evs) ->
  (emitted "Dockerfile" evs = true <-> In "dockerfile" (deploymentHelpers answers))
  /\ (emitted "docker-compose.yml" evs = true <-> In "compose" (deploymentHelpers answers))
  /\ (emitted "Jenkinsfile" evs = true <-> In "jenkins" (deploymentHelpers answers))
  /\ (emitted ".github/workflows/ci.yml" evs = true
      <-> In "github" (deploymentHelpers answers))
  /\ exists core extra,
       scaffold host (withHelpers [] answers) u = (Done tt, u', core)
       /\ evs = (core ++ extra)%list
       /\ (forall p, In p deploymentPaths -> emitted p core = false)
       /\ (deploymentHelpers answers = [] -> extra = []).
Proof.
  intro H.
  destruct (scaffold_done _ _ _ _ _ H) as (name & u1 & evs1 & pkgJson & Hres & Hup & Htools & -> & Hevs).
  set (isTS := (language answers =? "TypeScript")%string) in *.
  set (isESM := startsWith (moduleSystem answers) "ES Modules") in *.
  destruct (deployment_writes isTS name (port answers) (deploymentHelpers answers))
    as (Hd & Hc & Hj & Hg).
  assert (Hw : forall p, In p deploymentPaths ->
             written p evs
             = written p (deploymentPlan isTS name (port answers) (deploymentHelpers answers))).
  { intros p Hp. exact (written_scaffold host answers u evs name u1 evs1 pkgJson p Hres Hp Hevs). }
  split; [| split; [| split; [| split]]].
  - eapply emitted_single. rewrite Hw by (cbn; auto). exact Hd.
  - eapply emitted_single. rewrite Hw by (cbn; auto). exact Hc.
  - eapply emitted_single. rewrite Hw by (cbn; auto). exact Hj.
  - eapply emitted_single. rewrite Hw by (cbn; auto 6). exact Hg.
  - exists (evs1 ++ MkdirSync name :: Chdir name
              :: corePlan host isTS isESM name (packages answers) (port answers) pkgJson)%list,
           (deploymentPlan isTS name (port answers) (deploymentHelpers answers)).
    split; [| split; [| split]].
    + rewrite (scaffold_run host (withHelpers [] answers) u name u1 evs1 Hres).
      cbn [language moduleSystem packages port deploymentHelpers withHelpers].
      fold isTS isESM.
      rewrite (generate_completes _ _ _ _ _ _ _ pkgJson u1 Htools Hup).
      cbn [deploymentPlan includes existsb app]. rewrite app_nil_r. reflexivity.
    + rewrite Hevs. rewrite <- app_assoc. reflexivity.
    + intros p Hp. unfold emitted.
      rewrite (written_scaffold host (withHelpers [] answers) u _ name u1 evs1 pkgJson p Hres Hp).
      * reflexivity.
      * cbn [language moduleSystem packages port deploymentHelpers withHelpers
             deploymentPlan includes existsb app].
        fold isTS isESM. rewrite app_nil_r. reflexivity.
    + intros ->. reflexivity.
Qed.

Lemma deployment_files_iff_selected_witness :
  (emitted "Dockerfile"
     (events (scaffold (machine nothingTaken "demo-app") demoAnswers demoSession)) = true
   <-> In "dockerfile" (deploymentHelpers demoAnswers))
  /\ (emitted "docker-compose.yml"
        (events (scaffold (machine nothingTaken "demo-app") demoAnswers demoSession)) = true
      <-> In "compose" (deploymentHelpers demoAnswers)).
Proof.
  pose proof (deployment_files_iff_selected
                (machine nothingTaken "demo-app") demoAnswers demoSession
                demoSession
                (events (scaffold (machine nothingTaken "demo-app") demoAnswers demoSession))
                eq_refl) as (Hd & Hc & _).
  split; [exact Hd | exact Hc].
Defined.

(** ** The manifest *)

Lemma field_assign_same k v fs : field k (assign k v fs) = Some v.
Proof.
  induction fs as [|[k' v'] fs IH]; cbn.
  - rewrite String.eqb_refl. reflexivity.
  - destruct (String.eqb k k') eqn:E; cbn.
    + rewrite String.eqb_refl. reflexivity.
    + rewrite E. exact IH.
Qed.

Lemma field_assign_other k k' v fs :
  k <> k' -> field k (assign k' v fs) = field k fs.
Proof.
  intro Hne. induction fs as [|[k2 v2] fs IH]; cbn.
  - destruct (String.eqb_spec k k'); [contradiction | reflexivity].
  - destruct (String.eqb_spec k' k2) as [<- | Hk2]; cbn.
    + destruct (String.eqb_spec k k'); [contradiction | reflexivity].
    + destruct (String.eqb k k2); [reflexivity | exact IH].
Qed.

(** What the amended manifest holds, for a manifest with a [scripts]
    object (as npm writes it). *)
Lemma updatePackageJson_fields isTS isESM fs scripts :
  field "scripts" fs = Some (JObj scripts) ->
  exists pkgJson,
    updatePackageJson isTS isESM (JObj fs) = Some pkgJson
    /\ get "type" pkgJson
       = (if isESM then Some (JStr "module") else field "type" fs)
    /\ get2 "scripts" "start" pkgJson
       = Some (JStr (if isTS then "node dist/server.js" else "node src/server.js"))
    /\ get2 "scripts" "dev" pkgJson
       = Some (JStr (if isTS
                     then if isESM then "node --loader ts-node/esm src/server.ts"
                          else "ts-node src/server.ts"
                     else "nodemon src/server.js")).
Proof.
  intro Hs. unfold updatePackageJson.
  set (fs1 := if isESM then assign "type" (JStr "module") fs else fs).
  assert (H1 : field "scripts" fs1 = Some (JObj scripts)).
  { unfold fs1. destruct isESM; [| exact Hs].
    rewrite field_assign_other by discriminate. exact Hs. }
  rewrite H1. eexists. split; [reflexivity |].
  unfold get2, get.
  rewrite field_assign_same.
  rewrite field_assign_other by discriminate.
  split; [| split].
  - unfold fs1. destruct isESM; [apply field_assign_same | reflexivity].
  - unfold setScripts. destruct isTS;
      (rewrite field_assign_other by discriminate); apply field_assign_same.
  - unfold setScripts. destruct isTS; apply field_assign_same.
Qed.

(** ** Writes to the manifest *)

Lemma sourceFiles_not_manifest isTS isESM port host name :
  existsb (fun q => String.eqb q (pkgPath host name))
    (map fst (sourceFiles isTS isESM port)) = false.
Proof.
  unfold sourceFiles. cbn [map fst existsb].
  rewrite !eqb_pkgPath; [reflexivity | destruct isTS; reflexivity ..].
Qed.

Lemma core_writes_manifest host isTS isESM name packages port pkgJson :
  written (pkgPath host name) (corePlan host isTS isESM name packages port pkgJson)
  = [stringify2 pkgJson].
Proof.
  unfold corePlan.
  rewrite !written_app, written_mkdirs.
  rewrite (written_files _ _ (sourceFiles_not_manifest isTS isESM port host name)).
  assert (Hts : written (pkgPath host name) (if isTS
       then [ExecSync (devInstall true);
             WriteFileSync "tsconfig.json" (stringify2 (tsconfig isESM))]
       else [ExecSync (devInstall false)]) = []).
  { destruct isTS; cbn [written writeTo]; [| reflexivity].
    rewrite eqb_pkgPath by reflexivity. reflexivity. }
  rewrite Hts.
  cbn [written writeTo app].
  rewrite eqb_pkgPath by reflexivity.
  rewrite String.eqb_refl. reflexivity.
Qed.

Lemma deployment_writes_no_manifest host isTS name port helpers :
  written (pkgPath host name) (deploymentPlan isTS name port helpers) = [].
Proof.
  unfold deploymentPlan.
  destruct (includes helpers "dockerfile"), (includes helpers "compose"),
    (includes helpers "jenkins"), (includes helpers "github");
    cbn [written writeTo app]; rewrite ?eqb_pkgPath by reflexivity; reflexivity.
Qed.

Lemma core_writes_tsconfig host isTS isESM name packages port pkgJson :
  written "tsconfig.json" (corePlan host isTS isESM name packages port pkgJson)
  = (if isTS then [stringify2 (tsconfig isESM)] else []).
Proof.
  unfold corePlan.
  rewrite !written_app, written_mkdirs.
  rewrite written_files by (destruct isTS; reflexivity).
  cbn [written writeTo app].
  assert (Hp : (pkgPath host name =? "tsconfig.json")%string = false).
  { rewrite String.eqb_sym. apply eqb_pkgPath. reflexivity. }
  rewrite Hp.
  generalize (stringify2 (tsconfig isESM)) (envContent port). intros c1 c2.
  destruct isTS; reflexivity.
Qed.

(** ** The scenario of the specification *)

Lemma main_demo host pkgJson :
  existsOnDisk host "demo-app" = false ->
  toolsOk host true ["express"; "dotenv"] = true ->
  updatePackageJson true true (manifest host) = Some pkgJson ->
  main host demoSession
  = (Done tt, {| typed := []; chosen := []; ticked := [] |},
     ([Asked (i_message projectNameQ); Asked (l_message languageQ);
       Asked (l_message moduleSystemQ); Asked (k_message packagesQ);
       Asked (i_message portQ); Asked (k_message deploymentHelpersQ);
       ExistsSync "demo-app" false; MkdirSync "demo-app"; Chdir "demo-app"]
      ++ corePlan host true true "demo-app" ["express"; "dotenv"] "4000" pkgJson
      ++ deploymentPlan true "demo-app" "4000" ["dockerfile"])%list).
Proof.
  intros Hfree Htools Hup.
  rewrite (main_run _ _ _ _ _ promptAnswers_demo).
  rewrite (scaffold_run host demoAnswers _ _ _ _
             (resolveConflict_absent host "demo-app" _ Hfree)).
  change (language demoAnswers =? "TypeScript")%string with true.
  change (startsWith (moduleSystem demoAnswers) "ES Modules") with true.
  cbn [packages port deploymentHelpers demoAnswers].
  rewrite (generate_completes _ _ _ _ _ _ _ pkgJson _ Htools Hup).
  reflexivity.
Qed.

(** C2. For demo-app, TypeScript, ES modules, port 4000 and the Dockerfile
    helper, on a machine where demo-app is free, npm works and the
    manifest has a scripts object: the run completes; package.json is
    written once, with type module and the dev script of the ts-node ESM
    loader; tsconfig.json is written once, with module NodeNext; and one
    Dockerfile is written, which has the lines RUN npm run build and
    EXPOSE 4000. *)
Theorem demo_scenario_artifacts host fs scripts :
  existsOnDisk host "demo-app" = false ->
  toolsOk host true ["express"; "dotenv"] = true ->
  manifest host = JObj fs ->
  field "scripts" fs = Some (JObj scripts) ->
  let evs := events (main host demoSession) in
  result (main host demoSession) = Done tt
  /\ (exists pkgJson,
        written (pkgPath host "demo-app") evs = [stringify2 pkgJson]
        /\ get "type" pkgJson = Some (JStr "module")
        /\ get2 "scripts" "dev" pkgJson
           = Some (JStr "node --loader ts-node/esm src/server.ts"))
  /\ (exists tsc,
        written "tsconfig.json" evs = [stringify2 tsc]
        /\ get2 "compilerOptions" "module" tsc = Some (JStr "NodeNext")
        /\ hasLine ("    " ++ dq ++ "module" ++ dq ++ ": " ++ dq ++ "NodeNext" ++ dq ++ ",")
             (stringify2 tsc) = true)
  /\ (exists dockerfile,
        written "Dockerfile" evs = [dockerfile]
        /\ hasLine "RUN npm run build" dockerfile = true
        /\ hasLine "EXPOSE 4000" dockerfile = true).
Proof.
  intros Hfree Htools Hman Hscripts evs.
  destruct (updatePackageJson_fields true true fs scripts Hscripts)
    as (pkgJson & Hup & Htype & _ & Hdev).
  rewrite <- Hman in Hup.
  pose proof (main_demo host pkgJson Hfree Htools Hup) as E.
  unfold evs. rewrite E. unfold result, events. cbn [fst snd].
  split; [reflexivity |].
  split; [| split].
  - exists pkgJson. split; [| split; assumption].
    rewrite !written_app.
    rewrite core_writes_manifest, deployment_writes_no_manifest. reflexivity.
  - exists (tsconfig true). split; [| split; reflexivity].
    rewrite !written_app, core_writes_tsconfig.
    generalize (dockerfileContent true "4000"). intro c. reflexivity.
  - exists (dockerfileContent true "4000"). split; [| split; reflexivity].
    rewrite !written_app.
    rewrite core_writes_no_deployment_path by (cbn; auto).
    reflexivity.
Qed.

Lemma demo_scenario_artifacts_witness :
  result (main (machine nothingTaken "demo-app") demoSession) = Done tt
  /\ exists dockerfile,
       written "Dockerfile" (events (main (machine nothingTaken "demo-app") demoSession))
       = [dockerfile]
       /\ hasLine "RUN npm run build" dockerfile = true
       /\ hasLine "EXPOSE 4000" dockerfile = true.
Proof.
  pose proof (demo_scenario_artifacts (machine nothingTaken "demo-app") _ _
                eq_refl eq_refl eq_refl eq_refl) as (Hdone & _ & _ & Hdocker).
  split; [exact Hdone | exact Hdocker].
Defined.

(** ** Relative imports *)

Lemma scan_app st a b :
  scan st (a ++ b) = (scan st a ++ scan (lexAfter st a) b)%list.
Proof.
  revert st. induction a as [|c a IH]; intro st; [reflexivity |].
  cbn. destruct (lexStep st c) as [st' out]. cbn.
  rewrite IH, app_assoc. reflexivity.
Qed.

Lemma scan_quoteFree p rest :
  quoteFree p = true -> scan None (p ++ rest) = scan None rest.
Proof.
  induction p as [|c p IH]; [reflexivity |].
  cbn [quoteFree]. intro H. apply andb_prop in H as [Hc Hp].
  cbn. destruct (isDelimiter c); [discriminate |]. cbn. exact (IH Hp).
Qed.

(** A quote-free text spliced in outside of any literal adds no literal. *)
Lemma literals_splice pre p post :
  quoteFree p = true -> lexAfter None pre = None ->
  literals (pre ++ p ++ post) = (literals pre ++ literals post)%list.
Proof.
  intros Hp Hpre. unfold literals.
  rewrite scan_app, Hpre, scan_quoteFree by exact Hp. reflexivity.
Qed.

Lemma app_imports isTS isESM :
  relativeImports (appFileContent isTS isESM)
  = map (fun stem => stem ++ esmExt isESM) appStems.
Proof. destruct isTS, isESM; vm_compute; reflexivity. Qed.

Lemma server_imports isTS isESM port :
  quoteFree port = true ->
  relativeImports (serverFileContent isTS isESM port)
  = map (fun stem => stem ++ esmExt isESM) serverStems.
Proof.
  intro Hp. unfold relativeImports.
  destruct isTS, isESM; cbv beta iota delta [serverFileContent esmExt];
    match goal with
    | |- context [literals (?a ++ ?b ++ ?c ++ ?d ++ ?e ++ ?f ++ ?g ++ port ++ ?post)] =>
        change (a ++ b ++ c ++ d ++ e ++ f ++ g ++ port ++ post)
          with ((a ++ b ++ c ++ d ++ e ++ f ++ g) ++ port ++ post)
    | |- _ => idtac
    end;
    rewrite literals_splice by (exact Hp || reflexivity);
    vm_compute; reflexivity.
Qed.

Lemma suffix_of_stems isESM stems :
  Forall (fun stem => suffixOf (stem ++ esmExt isESM) = esmExt isESM) stems ->
  Forall (fun spec => suffixOf spec = esmExt isESM)
         (map (fun stem => stem ++ esmExt isESM) stems).
Proof.
  induction 1 as [|stem stems H _ IH]; cbn; constructor; assumption.
Qed.

(** C1 fails on the code.  The suffix is threaded through every renderer,
    but the server entry also takes the port text as typed, and the port
    question only reads the leading digits of that text.  The port
    [80; import './x.ts'] is accepted; the run of the demo session with it
    completes and writes a server entry whose relative imports include
    [./x.ts], of suffix [.ts], where the suffix of the configuration is
    [.js]: the imports of that run do not carry one suffix. *)
Theorem port_text_can_carry_a_relative_import :
  let run := main (machine nothingTaken "demo-app") trailingPortSession in
  validates portQ trailingPort = true
  /\ parseInt10 trailingPort = Int 80
  /\ result run = Done tt
  /\ written "src/server.ts" (events run) = [serverFileContent true true trailingPort]
  /\ In (serverFile true, serverFileContent true true trailingPort)
        (sourceFiles true true trailingPort)
  /\ hasLine "const PORT: number = Number(process.env.PORT) || 80; import './x.ts';"
       (serverFileContent true true trailingPort) = true
  /\ relativeImports (serverFileContent true true trailingPort)
     = ["./app.js"; "./utils/logger.js"; "./config/db.js"; "./x.ts"]
  /\ suffixOf "./x.ts" = ".ts"
  /\ esmExt true = ".js"
  /\ ~ Forall (fun spec => suffixOf spec = esmExt true)
        (relativeImports (serverFileContent true true trailingPort)).
Proof.
  cbv zeta.
  split; [vm_compute; reflexivity |].
  split; [vm_compute; reflexivity |].
  split; [vm_compute; reflexivity |].
  split; [vm_compute; reflexivity |].
  split; [unfold sourceFiles; cbn [In]; auto 20 |].
  split; [vm_compute; reflexivity |].
  split; [vm_compute; reflexivity |].
  split; [vm_compute; reflexivity |].
  split; [reflexivity |].
  intro H. rewrite Forall_forall in H.
  assert (Hin : In "./x.ts" (relativeImports (serverFileContent true true trailingPort)))
    by (vm_compute; auto 10).
  specialize (H _ Hin). vm_compute in H. discriminate H.
Qed.

(** X15. For each of the four combinations of language and module system
    and every port text that contains no quote character, every relative
    module specifier in every generated source file (logger, config
    stubs, middleware, route, app entry, server entry) carries the same
    suffix: [.js] under ES modules, none under CommonJS.  The app entry
    and the server entry refer to the same modules in all four variants,
    with that suffix; the other files import nothing from the project. *)
Theorem import_suffix_is_uniform (isTS isESM : bool) (port : string) :
  quoteFree port = true ->
  (forall path content,
      In (path, content) (sourceFiles isTS isESM port) ->
      Forall (fun spec => suffixOf spec = esmExt isESM) (relativeImports content))
  /\ esmExt isESM = (if isESM then ".js" else "")
  /\ relativeImports (appFileContent isTS isESM)
     = map (fun stem => stem ++ esmExt isESM) appStems
  /\ relativeImports (serverFileContent isTS isESM port)
     = map (fun stem => stem ++ esmExt isESM) serverStems.
Proof.
  intro Hp.
  split; [| split; [reflexivity | split; [apply app_imports | apply server_imports, Hp]]].
  intros path content Hin.
  unfold sourceFiles in Hin. cbn [In] in Hin.
  repeat destruct Hin as [Hin | Hin]; try contradiction;
    injection Hin as _ <-.
  9: { rewrite server_imports by exact Hp.
       apply suffix_of_stems. destruct isESM; repeat constructor. }
  8: { rewrite app_imports.
       apply suffix_of_stems. destruct isESM; repeat constructor. }
  all: destruct isTS, isESM; vm_compute; constructor.
Qed.

Lemma import_suffix_is_uniform_witness :
  relativeImports (serverFileContent true true "4000")
  = ["./app.js"; "./utils/logger.js"; "./config/db.js"]
  /\ relativeImports (appFileContent false false)
     = [ "./middleware/transactionIdMiddleware"; "./middleware/loggerConsole";
         "./middleware/errorHandler"; "./config/swagger"; "./routes/healthCheckRoute" ].
Proof.
  destruct (import_suffix_is_uniform true true "4000" eq_refl) as (_ & _ & _ & Hs).
  destruct (import_suffix_is_uniform false false "4000" eq_refl) as (_ & _ & Ha & _).
  split; [exact Hs | exact Ha].
Defined.

(** ** The compose descriptor *)

Lemma append_assoc (a b c : string) : ((a ++ b) ++ c)%string = (a ++ (b ++ c))%string.
Proof. induction a as [|x a IH]; cbn; [reflexivity | rewrite IH; reflexivity]. Qed.

Lemma singleLine_app a b : singleLine (a ++ b) = singleLine a && singleLine b.
Proof.
  induction a as [|c a IH]; cbn; [reflexivity |].
  rewrite IH, andb_assoc. reflexivity.
Qed.

Lemma textLines_single s : singleLine s = true -> textLines s = [s].
Proof.
  induction s as [|c s IH]; cbn; [reflexivity |].
  intro H. apply andb_prop in H as [Hc Hs].
  destruct (isLF c); [discriminate |]. rewrite (IH Hs). reflexivity.
Qed.

Lemma textLines_line a b :
  singleLine a = true -> textLines (a ++ nl ++ b) = a :: textLines b.
Proof.
  induction a as [|c a IH]; cbn [singleLine].
  - intros _. reflexivity.
  - intro H. apply andb_prop in H as [Hc Hs].
    cbn [append textLines]. destruct (isLF c); [discriminate |].
    rewrite (IH Hs). reflexivity.
Qed.

(** Lines joined by line breaks split back into themselves. *)
Lemma textLines_join ls :
  ls <> [] -> forallb singleLine ls = true -> textLines (join nl ls) = ls.
Proof.
  unfold join.
  induction ls as [|a ls IH]; [contradiction |].
  intros _ H. cbn [forallb] in H. apply andb_prop in H as [Ha Hls].
  destruct ls as [|b ls].
  - cbn. apply textLines_single, Ha.
  - change (String.concat nl (a :: b :: ls))
      with (a ++ nl ++ String.concat nl (b :: ls))%string.
    rewrite (textLines_line _ _ Ha), IH; [reflexivity | discriminate | exact Hls].
Qed.







(** What the descriptor sets for names that do not read as themselves: a
    comment is cut, surrounding blanks are dropped, and a key colon leaves
    no string at all. *)
Example container_names_of_other_names :
  containerNames (dockerComposeContent "web #1" "4000") = [Some "web"]
  /\ containerNames (dockerComposeContent "  my app  " "4000") = [Some "my app"]
  /\ containerNames (dockerComposeContent "a: b" "4000") = [None].
Proof. repeat split; vm_compute; reflexivity. Qed.

Lemma projectDirectory_scaffold host answers u name u1 evs1 rest :
  resolveConflict host (projectName answers) u = (Done name, u1, evs1) ->
  projectDirectory (evs1 ++ MkdirSync name :: Chdir name :: rest) = Some name.
Proof.
  intro Hres.
  destruct (resolveConflict_events host (projectName answers) u) as (qs & Hev & Hqs).
  rewrite Hres in Hev. cbn in Hev. subst evs1.
  destruct (questions_are_not_mutations _ Hqs) as (_ & _ & Hdir).
  cbn [app projectDirectory].
  rewrite projectDirectory_app_none by exact Hdir. reflexivity.
Qed.




(** ** The project name *)

Lemma bind_done {A B} (m : Script A) (k : A -> Script B) u b u' evs :
  bind m k u = (Done b, u', evs) ->
  exists a u1 evs1 evs2,
    m u = (Done a, u1, evs1) /\ k a u1 = (Done b, u', evs2)
    /\ evs = (evs1 ++ evs2)%list.
Proof.
  unfold bind.
  destruct (m u) as [[[a|c|e|] u1] evs1]; try discriminate.
  destruct (k a u1) as [[r u2] evs2] eqn:Hk.
  intro H. injection H as -> -> <-.
  exists a, u1, evs1, evs2. repeat split. exact Hk.
Qed.

Lemma askInput_done q u v u' evs :
  askInput q u = (Done v, u', evs) ->
  inputLoop q (typed u) = (Done v, typed u', evs).
Proof.
  unfold askInput.
  destruct (inputLoop q (typed u)) as [[r rest] evs1].
  intro H. injection H as -> <- ->. reflexivity.
Qed.

(** The answers that leave the prompts: a project name that is not empty
    and a port text the port validation accepts. *)
Lemma promptAnswers_done u answers u1 evs0 :
  promptAnswers u = (Done answers, u1, evs0) ->
  projectName answers <> "" /\ validates portQ (port answers) = true.
Proof.
  unfold promptAnswers. intro H.
  apply bind_done in H as (name & ua & ea & ea' & Hname & H & _).
  apply bind_done in H as (lang & ub & eb & eb' & _ & H & _).
  apply bind_done in H as (ms & uc & ec & ec' & _ & H & _).
  apply bind_done in H as (pk & ud & ed & ed' & _ & H & _).
  apply bind_done in H as (pt & ue & ee & ee' & Hport & H & _).
  apply bind_done in H as (dh & uf & ef & ef' & _ & H & _).
  unfold ret in H. injection H as <- _ _. cbn [projectName port].
  split.
  - apply askInput_done in Hname.
    eapply inputLoop_nonempty; [| exact Hname]. discriminate.
  - apply askInput_done in Hport.
    eapply inputLoop_validates. exact Hport.
Qed.

Lemma main_project_directory host u name :
  projectDirectory (events (main host u)) = Some name -> name <> "".
Proof.
  pose proof (promptAnswers_asks u) as Hq.
  destruct (promptAnswers u) as [[r u1] evs0] eqn:Hprompt. cbn in Hq.
  destruct (questions_are_not_mutations _ Hq) as (_ & _ & Hdir0).
  destruct r as [answers|code|error|];
    try (unfold main, bind; rewrite Hprompt; cbn; rewrite Hdir0; discriminate).
  destruct (promptAnswers_done _ _ _ _ Hprompt) as [Hname _].
  rewrite (main_run _ _ _ _ _ Hprompt).
  destruct (resolveConflict host (projectName answers) u1) as [[r2 u2] evs1] eqn:Hres.
  destruct (resolveConflict_events host (projectName answers) u1) as (qs & Hev & Hqs).
  rewrite Hres in Hev. cbn in Hev.
  destruct (questions_are_not_mutations _ Hqs) as (_ & _ & Hdir1).
  destruct r2 as [name'|code|error|].
  - rewrite (scaffold_run _ _ _ _ _ _ Hres).
    destruct (generate _ _ _ _ _ _ _ u2) as [[r3 u3] evs2].
    unfold events. cbn [snd].
    rewrite projectDirectory_app_none by exact Hdir0.
    rewrite (projectDirectory_scaffold _ _ _ _ _ _ _ Hres).
    intro H. injection H as <-.
    eapply resolveConflict_nonempty; [exact Hname | exact Hres].
  - destruct (scaffold_stops host answers u1 _ _ _ Hres) as [Hevs _]; [discriminate |].
    destruct (scaffold host answers u1) as [[r3 u3] evs3]. cbn in Hevs. subst evs3.
    unfold events. cbn [snd]. rewrite projectDirectory_app_none by exact Hdir0.
    rewrite Hev. cbn. rewrite Hdir1. discriminate.
  - destruct (scaffold_stops host answers u1 _ _ _ Hres) as [Hevs _]; [discriminate |].
    destruct (scaffold host answers u1) as [[r3 u3] evs3]. cbn in Hevs. subst evs3.
    unfold events. cbn [snd]. rewrite projectDirectory_app_none by exact Hdir0.
    rewrite Hev. cbn. rewrite Hdir1. discriminate.
  - destruct (scaffold_stops host answers u1 _ _ _ Hres) as [Hevs _]; [discriminate |].
    destruct (scaffold host answers u1) as [[r3 u3] evs3]. cbn in Hevs. subst evs3.
    unfold events. cbn [snd]. rewrite projectDirectory_app_none by exact Hdir0.
    rewrite Hev. cbn. rewrite Hdir1. discriminate.
Qed.

(** C5, as the code has it.  The project-name question has no validator:
    it is put once and whatever line is typed is the answer, the default
    my-node-app standing in for an empty line; the question is never
    repeated.  The directory a run enters therefore never has an empty
    name; nothing else about the name is checked. *)
Theorem project_name_is_taken_as_typed :
  i_validate projectNameQ = None
  /\ (forall line rest picks boxes,
        askInput projectNameQ {| typed := line :: rest; chosen := picks; ticked := boxes |}
        = (Done (if (line =? "")%string then "my-node-app" else line),
           {| typed := rest; chosen := picks; ticked := boxes |},
           [Asked (i_message projectNameQ)]))
  /\ (forall host u name,
        projectDirectory (events (main host u)) = Some name -> name <> "").
Proof.
  split; [reflexivity | split].
  - intros line rest picks boxes. reflexivity.
  - exact main_project_directory.
Qed.

Lemma project_name_is_taken_as_typed_witness :
  projectDirectory (events (main (machine nothingTaken "my-node-app") defaultsSession))
    = Some "my-node-app"
  /\ "my-node-app" <> "".
Proof.
  split; [reflexivity |].
  destruct project_name_is_taken_as_typed as (_ & _ & H).
  apply (H (machine nothingTaken "my-node-app") defaultsSession "my-node-app").
  reflexivity.
Defined.

(** C5 as stated fails: an empty line is not rejected but answered with
    the default, without a second question; and a name that is a path out
    of the starting directory is accepted and becomes the project
    directory. *)
Lemma project_name_is_not_validated :
  askInput projectNameQ defaultsSession
    = (Done "my-node-app",
       {| typed := [""]; chosen := chosen defaultsSession; ticked := ticked defaultsSession |},
       [Asked (i_message projectNameQ)])
  /\ projectDirectory (events (main (machine nothingTaken "outside") outsideSession))
     = Some "../outside"
  /\ result (main (machine nothingTaken "outside") outsideSession) = Done tt
  /\ filesystemSafe "../outside" = false.
Proof. repeat split; reflexivity. Qed.

(** ** The port text in the generated files *)

(** C3 fails on the code.  The port question accepts 080 (and 4000abc:
    parseInt stops at the first character that is no digit), and the text
    is copied as typed into .env, the Dockerfile, the compose descriptor
    and the server entry: none of them gets a decimal literal without
    leading zeros. *)
Theorem port_text_is_rendered_as_typed :
  let evs := events (main (machine nothingTaken "demo-app") leadingZeroSession) in
  validates portQ "080" = true
  /\ parseInt10 "080" = Int 80
  /\ decimalLiteral "080" = false
  /\ validates portQ "4000abc" = true
  /\ decimalLiteral "4000abc" = false
  /\ result (main (machine nothingTaken "demo-app") leadingZeroSession) = Done tt
  /\ written ".env" evs = [envContent "080"]
  /\ hasLine "PORT=080" (envContent "080") = true
  /\ written "Dockerfile" evs = [dockerfileContent true "080"]
  /\ hasLine "EXPOSE 080" (dockerfileContent true "080") = true
  /\ written "docker-compose.yml" evs = [dockerComposeContent "demo-app" "080"]
  /\ hasLine ("      - " ++ dq ++ "080:080" ++ dq) (dockerComposeContent "demo-app" "080") = true
  /\ written "src/server.ts" evs = [serverFileContent true true "080"]
  /\ hasLine "const PORT: number = Number(process.env.PORT) || 080;"
       (serverFileContent true true "080") = true.
Proof. cbv zeta. repeat split; vm_compute; reflexivity. Qed.

(** * Further properties of the script *)

Import Survey.

(** ** Writes of a completed run *)

Lemma written_conflict_prefix host name u path rest :
  written path (events (resolveConflict host name u) ++ rest) = written path rest.
Proof.
  destruct (resolveConflict_events host name u) as (qs & -> & Hqs).
  cbn [app written writeTo]. rewrite written_app, (written_questions _ _ Hqs).
  reflexivity.
Qed.

Lemma deployment_writes_elsewhere isTS name port helpers path :
  existsb (String.eqb path) deploymentPaths = false ->
  written path (deploymentPlan isTS name port helpers) = [].
Proof.
  intro H. cbn in H.
  repeat (apply orb_false_elim in H as [? H]).
  unfold deploymentPlan.
  destruct (includes helpers "dockerfile"), (includes helpers "compose"),
    (includes helpers "jenkins"), (includes helpers "github");
    cbn [written writeTo app];
    rewrite ?(String.eqb_sym _ path);
    repeat match goal with E : (path =? _)%string = false |- _ => rewrite E; clear E end;
    reflexivity.
Qed.

Lemma tsconfig_written host answers u u' evs :
  scaffold host answers u = (Done tt, u', evs) ->
  written "tsconfig.json" evs
  = (if (language answers =? "TypeScript")%string
     then [stringify2 (tsconfig (startsWith (moduleSystem answers) "ES Modules"))]
     else []).
Proof.
  intro H.
  destruct (scaffold_done _ _ _ _ _ H)
    as (name & u1 & evs1 & pkgJson & Hres & Hup & Htools & -> & ->).
  replace evs1 with (events (resolveConflict host (projectName answers) u))
    by (rewrite Hres; reflexivity).
  rewrite written_conflict_prefix. cbn [written writeTo].
  rewrite written_app, core_writes_tsconfig.
  rewrite deployment_writes_elsewhere by reflexivity.
  apply app_nil_r.
Qed.

(** X1. In a run that completes, tsconfig.json is written exactly when the
    language is TypeScript, and then once; a JavaScript project gets none.
    Its module settings follow the module system: NodeNext twice and
    allowSyntheticDefaultImports under ES modules, CommonJS with Node
    resolution and no such flag otherwise. *)
Theorem tsconfig_is_written_for_typescript_only host answers u u' evs :
  scaffold host answers u = (Done tt, u', evs) ->
  let isTS := (language answers =? "TypeScript")%string in
  let isESM := startsWith (moduleSystem answers) "ES Modules" in
  written "tsconfig.json" evs = (if isTS then [stringify2 (tsconfig isESM)] else [])
  /\ get2 "compilerOptions" "module" (tsconfig isESM)
     = Some (JStr (if isESM then "NodeNext" else "CommonJS"))
  /\ get2 "compilerOptions" "moduleResolution" (tsconfig isESM)
     = Some (JStr (if isESM then "NodeNext" else "Node"))
  /\ get2 "compilerOptions" "allowSyntheticDefaultImports" (tsconfig isESM)
     = (if isESM then Some (JBool true) else None).
Proof.
  intros H isTS isESM.
  split; [apply (tsconfig_written _ _ _ _ _ H) |].
  destruct isESM; repeat split; reflexivity.
Qed.

Lemma tsconfig_is_written_for_typescript_only_witness :
  written "tsconfig.json"
    (events (scaffold (machine nothingTaken "demo-app") demoAnswers demoSession))
  = [stringify2 (tsconfig true)].
Proof.
  exact (proj1 (tsconfig_is_written_for_typescript_only
                  (machine nothingTaken "demo-app") demoAnswers demoSession demoSession
                  _ eq_refl)).
Defined.

(** ** Amending the manifest *)

Lemma field_some_key k v fs : field k fs = Some v -> includes (keys fs) k = true.
Proof.
  unfold includes, keys.
  induction fs as [|[k' v'] fs IH]; cbn; [discriminate |].
  destruct (String.eqb k k'); [reflexivity | exact IH].
Qed.

Lemma assign_keys k v fs :
  keys (assign k v fs) = (if includes (keys fs) k then keys fs else keys fs ++ [k])%list.
Proof.
  unfold includes, keys.
  induction fs as [|[k' v'] fs IH]; cbn; [reflexivity |].
  destruct (String.eqb k k') eqn:E; cbn.
  - apply String.eqb_eq in E. subst. reflexivity.
  - rewrite IH. destruct (existsb (String.eqb k) (map fst fs)); reflexivity.
Qed.

(** X2. Amending a manifest that has a scripts object sets scripts.start
    and scripts.dev to the launch commands of the variant and, under ES
    modules, type to module; every other top-level field and every other
    script keeps its value, and the fields keep their order (a missing
    type is added last). *)
Theorem manifest_amendment_keeps_the_rest isTS isESM fs scripts :
  field "scripts" fs = Some (JObj scripts) ->
  exists fs' scripts',
    updatePackageJson isTS isESM (JObj fs) = Some (JObj fs')
    /\ field "scripts" fs' = Some (JObj scripts')
    /\ field "start" scripts'
       = Some (JStr (if isTS then "node dist/server.js" else "node src/server.js"))
    /\ field "dev" scripts'
       = Some (JStr (if isTS
                     then if isESM then "node --loader ts-node/esm src/server.ts"
                          else "ts-node src/server.ts"
                     else "nodemon src/server.js"))
    /\ field "type" fs' = (if isESM then Some (JStr "module") else field "type" fs)
    /\ (forall k, k <> "type" -> k <> "scripts" -> field k fs' = field k fs)
    /\ (forall k, k <> "start" -> k <> "dev" -> field k scripts' = field k scripts)
    /\ keys fs' = (if isESM && negb (includes (keys fs) "type")
                   then keys fs ++ ["type"] else keys fs)%list.
Proof.
  intro Hs. unfold updatePackageJson.
  set (fs1 := if isESM then assign "type" (JStr "module") fs else fs).
  assert (H1 : field "scripts" fs1 = Some (JObj scripts)).
  { unfold fs1. destruct isESM; [| exact Hs].
    rewrite field_assign_other by discriminate. exact Hs. }
  rewrite H1.
  exists (assign "scripts" (JObj (setScripts isTS isESM scripts)) fs1),
         (setScripts isTS isESM scripts).
  split; [reflexivity |].
  split; [apply field_assign_same |].
  split; [unfold setScripts; destruct isTS;
          (rewrite field_assign_other by discriminate); apply field_assign_same |].
  split; [unfold setScripts; destruct isTS; apply field_assign_same |].
  split; [rewrite field_assign_other by discriminate;
          unfold fs1; destruct isESM; [apply field_assign_same | reflexivity] |].
  split; [| split].
  - intros k Ht Hsc. rewrite field_assign_other by exact Hsc.
    unfold fs1. destruct isESM; [apply field_assign_other; exact Ht | reflexivity].
  - intros k Hst Hdev. unfold setScripts.
    destruct isTS; rewrite !field_assign_other by assumption; reflexivity.
  - rewrite assign_keys, (field_some_key _ _ _ H1).
    unfold fs1. destruct isESM; cbn [andb]; [| reflexivity].
    rewrite assign_keys. destruct (includes (keys fs) "type"); reflexivity.
Qed.

Lemma manifest_amendment_keeps_the_rest_witness :
  exists fs' scripts',
    updatePackageJson false true (freshManifest "demo-app") = Some (JObj fs')
    /\ field "scripts" fs' = Some (JObj scripts')
    /\ field "license" fs' = Some (JStr "ISC")
    /\ keys scripts' = ["test"; "start"; "dev"]
    /\ keys fs' = ["name"; "version"; "description"; "main"; "scripts"; "keywords";
                   "author"; "license"; "type"].
Proof.
  destruct (manifest_amendment_keeps_the_rest false true
              [ ("name", JStr "demo-app"); ("version", JStr "1.0.0");
                ("description", JStr ""); ("main", JStr "index.js");
                ("scripts", JObj [("test", JStr ("echo " ++ dq ++ "Error: no test specified" ++ dq ++ " && exit 1"))]);
                ("keywords", JArr []); ("author", JStr ""); ("license", JStr "ISC") ]
              _ eq_refl)
    as (fs' & scripts' & Hup & Hsc & _ & _ & _ & Hframe & _ & Hkeys).
  exists fs', scripts'.
  split; [exact Hup |].
  split; [exact Hsc |].
  split; [rewrite Hframe by discriminate; reflexivity |].
  split; [| exact Hkeys].
  vm_compute in Hup. injection Hup as <-.
  vm_compute in Hsc. injection Hsc as <-. reflexivity.
Defined.

(** ** Runs that stop half-way *)

Lemma generate_throws host isTS isESM projectName packages port deploymentHelpers u :
  toolsOk host isTS packages = true ->
  updatePackageJson isTS isESM (manifest host) = None ->
  generate host isTS isESM projectName packages port deploymentHelpers u
  = (Thrown "TypeError", u, planBeforeManifest host isTS isESM projectName packages port).
Proof.
  intros Htools Hpkg.
  unfold toolsOk in Htools.
  apply andb_prop in Htools as [Htools H3].
  apply andb_prop in Htools as [H1 H2].
  unfold generate, planBeforeManifest, pkgPath.
  unfold execSync at 1 2. rewrite H1, H2, Hpkg.
  unfold bind at 1 2 3 4. cbv beta iota delta [emit ret].
  unfold bind at 1.
  destruct isTS; cbv beta iota delta [devInstall] in H3.
  - unfold writeFileSync, execSync. rewrite H3.
    unfold bind at 1 2. cbv beta iota delta [emit ret].
    unfold bind at 1.
    rewrite (forEach_events _ MkdirSync) by reflexivity.
    unfold bind at 1 2 3. cbv beta iota delta [emit orThrow throw].
    reflexivity.
  - unfold writeFileSync, execSync. rewrite H3.
    unfold bind at 1. cbv beta iota delta [emit ret].
    unfold bind at 1.
    rewrite (forEach_events _ MkdirSync) by reflexivity.
    unfold bind at 1 2 3. cbv beta iota delta [emit orThrow throw].
    reflexivity.
Qed.

Lemma writtenPaths_app a b : writtenPaths (a ++ b) = (writtenPaths a ++ writtenPaths b)%list.
Proof.
  induction a as [|e a IH]; [reflexivity |].
  destruct e; cbn; rewrite ?IH; reflexivity.
Qed.

Lemma writtenPaths_mkdirs dirs : writtenPaths (map MkdirSync dirs) = [].
Proof. induction dirs as [|d dirs IH]; [reflexivity | exact IH]. Qed.

(** X3. When npm has done its part but the manifest has no scripts entry
    (or is no object at all), the run ends in a TypeError at the point
    where it amends the manifest: tsconfig.json (for TypeScript) and .env
    are written by then, package.json is left as npm wrote it and none of
    the source or deployment files is written. *)
Theorem manifest_without_scripts_stops_the_run
    host isTS isESM projectName packages port deploymentHelpers u :
  toolsOk host isTS packages = true ->
  (forall fs, manifest host = JObj fs -> field "scripts" fs = None) ->
  generate host isTS isESM projectName packages port deploymentHelpers u
    = (Thrown "TypeError", u, planBeforeManifest host isTS isESM projectName packages port)
  /\ writtenPaths (planBeforeManifest host isTS isESM projectName packages port)
     = ((if isTS then ["tsconfig.json"] else []) ++ [".env"])%list.
Proof.
  intros Htools Hman. split.
  - apply generate_throws; [exact Htools |].
    unfold updatePackageJson.
    destruct (manifest host) as [| | | | |fs]; try reflexivity.
    specialize (Hman fs eq_refl).
    assert (H1 : field "scripts" (if isESM then assign "type" (JStr "module") fs else fs)
                 = None).
    { destruct isESM; [| exact Hman].
      rewrite field_assign_other by discriminate. exact Hman. }
    cbv zeta. rewrite H1. reflexivity.
  - unfold planBeforeManifest.
    rewrite !writtenPaths_app, writtenPaths_mkdirs.
    destruct isTS; reflexivity.
Qed.

Lemma manifest_without_scripts_stops_the_run_witness :
  result (generate (bareMachine (JObj [("name", JStr "demo-app")]))
            true true "demo-app" ["express"] "3000" ["dockerfile"] demoSession)
  = Thrown "TypeError".
Proof.
  destruct (manifest_without_scripts_stops_the_run
              (bareMachine (JObj [("name", JStr "demo-app")]))
              true true "demo-app" ["express"] "3000" ["dockerfile"] demoSession
              eq_refl) as [H _].
  - intros fs Hm. injection Hm as <-. reflexivity.
  - rewrite H. reflexivity.
Defined.

(** X4. When one of the npm commands fails, generation ends with the
    error of that command and has written no file at all: every npm
    command runs before the first file is written. *)
Theorem failing_npm_command_stops_before_any_write
    host isTS isESM projectName packages port deploymentHelpers u :
  toolsOk host isTS packages = false ->
  exists command,
    toolSucceeds host command = false
    /\ result (generate host isTS isESM projectName packages port deploymentHelpers u)
       = Thrown ("Command failed: " ++ command)
    /\ writtenPaths
         (events (generate host isTS isESM projectName packages port deploymentHelpers u))
       = [].
Proof.
  unfold toolsOk. intro H.
  destruct (toolSucceeds host "npm init -y") eqn:H1.
  - destruct (toolSucceeds host ("npm install " ++ join " " packages)) eqn:H2.
    + cbn [andb] in H.
      exists (devInstall isTS). split; [exact H |].
      assert (E : generate host isTS isESM projectName packages port deploymentHelpers u
                  = (Thrown ("Command failed: " ++ devInstall isTS), u,
                     [ExecSync "npm init -y";
                      ExecSync ("npm install " ++ join " " packages);
                      ExecSync (devInstall isTS)])).
      { unfold generate. unfold execSync at 1 2. rewrite H1, H2.
        unfold bind at 1 2 3 4. cbv beta iota delta [emit ret].
        unfold bind at 1.
        destruct isTS; cbv beta iota delta [devInstall] in H |- *;
          unfold execSync; rewrite H;
          unfold bind; cbv beta iota delta [emit throw]; reflexivity. }
      rewrite E. split; reflexivity.
    + exists ("npm install " ++ join " " packages). split; [exact H2 |].
      assert (E : generate host isTS isESM projectName packages port deploymentHelpers u
                  = (Thrown ("Command failed: " ++ "npm install " ++ join " " packages), u,
                     [ExecSync "npm init -y";
                      ExecSync ("npm install " ++ join " " packages)])).
      { unfold generate. unfold execSync at 1 2. rewrite H1, H2.
        unfold bind at 1 2 3 4. cbv beta iota delta [emit ret throw].
        reflexivity. }
      rewrite E. split; reflexivity.
  - exists "npm init -y". split; [exact H1 |].
    assert (E : generate host isTS isESM projectName packages port deploymentHelpers u
                = (Thrown ("Command failed: " ++ "npm init -y"), u,
                   [ExecSync "npm init -y"])).
    { unfold generate. unfold execSync at 1. rewrite H1.
      unfold bind at 1 2. cbv beta iota delta [emit throw].
      reflexivity. }
    rewrite E. split; reflexivity.
Qed.

Lemma failing_npm_command_stops_before_any_write_witness :
  exists command,
    result (generate (brokenMachine "npm install express")
              false true "demo-app" ["express"] "3000" [] demoSession)
    = Thrown ("Command failed: " ++ command).
Proof.
  destruct (failing_npm_command_stops_before_any_write
              (brokenMachine "npm install express")
              false true "demo-app" ["express"] "3000" [] demoSession eq_refl)
    as (command & _ & H & _).
  exists command. exact H.
Defined.

(** ** What the prompts let through *)

Lemma listLoop_offered q picks v rest :
  listLoop q picks = (Done v, rest) -> In v (offered (l_choices q)).
Proof.
  induction picks as [|p picks IH]; cbn; [discriminate |].
  destruct (includes (offered (l_choices q)) p) eqn:E; [| exact IH].
  intro H. injection H as <- _. apply includes_In. exact E.
Qed.

Lemma askList_done q u v u' evs :
  askList q u = (Done v, u', evs) -> In v (offered (l_choices q)).
Proof.
  unfold askList.
  destruct (listLoop q (chosen u)) as [r rest] eqn:E.
  intro H. injection H as -> _ _. eapply listLoop_offered. exact E.
Qed.

Lemma askCheckbox_done q u vs u' evs :
  askCheckbox q u = (Done vs, u', evs) ->
  incl vs (offered (k_choices q))
  /\ (NoDup (offered (k_choices q)) -> NoDup vs).
Proof.
  unfold askCheckbox.
  destruct (ticked u) as [|boxes rest]; [discriminate |].
  intro H. injection H as <- _ _. split.
  - intros v Hv. apply filter_In in Hv. apply Hv.
  - apply NoDup_filter.
Qed.

Lemma NoDup_by_nodup (l : list string) :
  nodup string_dec l = l -> NoDup l.
Proof. intros <-. apply NoDup_nodup. Qed.

Lemma promptAnswers_esm u answers u1 evs0 :
  promptAnswers u = (Done answers, u1, evs0) ->
  moduleSystem answers = "ES Modules (import/export)".
Proof.
  unfold promptAnswers. intro H.
  apply bind_done in H as (name & ua & ea & ea' & _ & H & _).
  apply bind_done in H as (lang & ub & eb & eb' & _ & H & _).
  apply bind_done in H as (ms & uc & ec & ec' & Hms & H & _).
  apply bind_done in H as (pk & ud & ed & ed' & _ & H & _).
  apply bind_done in H as (pt & ue & ee & ee' & _ & H & _).
  apply bind_done in H as (dh & uf & ef & ef' & _ & H & _).
  unfold ret in H. injection H as <- _ _. cbn [moduleSystem].
  apply askList_done in Hms. cbn in Hms.
  destruct Hms as [<- | []]. reflexivity.
Qed.

(** X5. The answers that leave the six prompts form a supported
    configuration: the language is TypeScript or JavaScript; the module
    system is the ES-modules entry (the CommonJS entry is disabled), so
    [isESM] holds in every run; the port text parses to an integer
    strictly between 0 and 65536; the project name is not empty; the
    deployment helpers and the packages are drawn without repetition from
    the four helper values and from the package catalogue. *)
Theorem prompts_deliver_a_supported_configuration u answers u1 evs0 :
  promptAnswers u = (Done answers, u1, evs0) ->
  (language answers = "TypeScript" \/ language answers = "JavaScript")
  /\ moduleSystem answers = "ES Modules (import/export)"
  /\ startsWith (moduleSystem answers) "ES Modules" = true
  /\ (exists n : Z, parseInt10 (port answers) = Int n /\ (0 < n < 65536)%Z)
  /\ projectName answers <> ""
  /\ incl (deploymentHelpers answers) ["dockerfile"; "compose"; "jenkins"; "github"]
  /\ NoDup (deploymentHelpers answers)
  /\ incl (packages answers) (offered (k_choices packagesQ))
  /\ NoDup (packages answers).
Proof.
  intro H0.
  destruct (promptAnswers_done _ _ _ _ H0) as [Hname Hport].
  unfold promptAnswers in H0.
  apply bind_done in H0 as (name & ua & ea & ea' & _ & H & _).
  apply bind_done in H as (lang & ub & eb & eb' & Hlang & H & _).
  apply bind_done in H as (ms & uc & ec & ec' & Hms & H & _).
  apply bind_done in H as (pk & ud & ed & ed' & Hpk & H & _).
  apply bind_done in H as (pt & ue & ee & ee' & _ & H & _).
  apply bind_done in H as (dh & uf & ef & ef' & Hdh & H & _).
  unfold ret in H. injection H as <- _ _.
  cbn [language moduleSystem port projectName deploymentHelpers packages] in *.
  apply askList_done in Hlang. cbn in Hlang.
  apply askList_done in Hms. cbn in Hms.
  apply askCheckbox_done in Hpk as [Hpk1 Hpk2].
  apply askCheckbox_done in Hdh as [Hdh1 Hdh2].
  assert (Hms' : ms = "ES Modules (import/export)") by (destruct Hms as [<- | []]; reflexivity).
  split; [destruct Hlang as [<- | [<- | []]]; auto |].
  split; [exact Hms' |].
  split; [rewrite Hms'; reflexivity |].
  split; [| split; [exact Hname |]].
  - assert (Hv : validatePort pt = Valid).
    { unfold validates in Hport. cbn in Hport.
      destruct (validatePort pt); [reflexivity | discriminate]. }
    apply validatePort_spec. exact Hv.
  - split; [exact Hdh1 |].
    split; [apply Hdh2; apply NoDup_by_nodup; reflexivity |].
    split; [exact Hpk1 |].
    apply Hpk2. apply NoDup_by_nodup. reflexivity.
Qed.

Lemma prompts_deliver_a_supported_configuration_witness :
  moduleSystem demoAnswers = "ES Modules (import/export)"
  /\ exists n : Z, parseInt10 (port demoAnswers) = Int n /\ (0 < n < 65536)%Z.
Proof.
  destruct (prompts_deliver_a_supported_configuration demoSession demoAnswers _ _
              promptAnswers_demo) as (_ & Hms & _ & Hport & _).
  split; [exact Hms | exact Hport].
Defined.

Lemma updatePackageJson_type isTS m pkgJson :
  updatePackageJson isTS true m = Some pkgJson ->
  get "type" pkgJson = Some (JStr "module").
Proof.
  unfold updatePackageJson.
  destruct m as [| | | | |fs]; try discriminate.
  cbv zeta.
  destruct (field "scripts" (assign "type" (JStr "module") fs)) as [[| | | |items|scripts]|];
    try discriminate; intro H; injection H as <-; cbn [get].
  - apply field_assign_same.
  - rewrite field_assign_other by discriminate. apply field_assign_same.
Qed.

Lemma main_done host u u' evs :
  main host u = (Done tt, u', evs) ->
  exists answers u1 evs0 evsS,
    promptAnswers u = (Done answers, u1, evs0)
    /\ scaffold host answers u1 = (Done tt, u', evsS)
    /\ evs = (evs0 ++ evsS)%list.
Proof. unfold main. apply bind_done. Qed.

(** X6. Every run of the whole script that completes sets up an ES-module
    project: package.json is written once, by the script, with type
    module; and when the language is TypeScript, tsconfig.json carries the
    NodeNext settings. *)
Theorem every_completed_run_is_an_es_module_project host u u' evs :
  main host u = (Done tt, u', evs) ->
  exists name pkgJson,
    projectDirectory evs = Some name
    /\ written (pkgPath host name) evs = [stringify2 pkgJson]
    /\ get "type" pkgJson = Some (JStr "module")
    /\ (written "tsconfig.json" evs = [] \/
        written "tsconfig.json" evs = [stringify2 (tsconfig true)]).
Proof.
  intro H.
  destruct (main_done _ _ _ _ H) as (answers & u1 & evs0 & evsS & Hprompt & Hsc & ->).
  assert (Hesm : startsWith (moduleSystem answers) "ES Modules" = true)
    by (rewrite (promptAnswers_esm _ _ _ _ Hprompt); reflexivity).
  pose proof (promptAnswers_asks u) as Hq. rewrite Hprompt in Hq. cbn in Hq.
  destruct (questions_are_not_mutations _ Hq) as (_ & _ & Hdir0).
  pose proof (tsconfig_written _ _ _ _ _ Hsc) as Hts.
  destruct (scaffold_done _ _ _ _ _ Hsc)
    as (name & u2 & evs1 & pkgJson & Hres & Hup & Htools & -> & ->).
  rewrite Hesm in *.
  exists name, pkgJson.
  split; [| split; [| split]].
  - rewrite projectDirectory_app_none by exact Hdir0.
    apply (projectDirectory_scaffold _ _ _ _ _ _ _ Hres).
  - rewrite written_app, (written_questions _ _ Hq). cbn [app].
    replace evs1 with (events (resolveConflict host (projectName answers) u1))
      by (rewrite Hres; reflexivity).
    rewrite written_conflict_prefix. cbn [written writeTo].
    rewrite written_app, core_writes_manifest, deployment_writes_no_manifest.
    reflexivity.
  - apply (updatePackageJson_type _ _ _ Hup).
  - rewrite written_app, (written_questions _ _ Hq). cbn [app].
    rewrite Hts.
    destruct (language answers =? "TypeScript")%string; [right | left]; reflexivity.
Qed.

Lemma every_completed_run_is_an_es_module_project_witness :
  exists name pkgJson,
    projectDirectory (events (main (machine nothingTaken "demo-app") demoSession)) = Some name
    /\ written (pkgPath (machine nothingTaken "demo-app") name)
         (events (main (machine nothingTaken "demo-app") demoSession))
       = [stringify2 pkgJson]
    /\ get "type" pkgJson = Some (JStr "module").
Proof.
  destruct (every_completed_run_is_an_es_module_project
              (machine nothingTaken "demo-app") demoSession _ _ eq_refl)
    as (name & pkgJson & Hdir & Hw & Ht & _).
  exists name, pkgJson. split; [exact Hdir | split; [exact Hw | exact Ht]].
Defined.

(** ** After the folder conflict *)

Lemma ignoresUser_ret {A} (a : A) : ignoresUser (ret a).
Proof. exists (Done a), []. reflexivity. Qed.

Lemma ignoresUser_throw {A} error : ignoresUser (@throw A error).
Proof. exists (Thrown error), []. reflexivity. Qed.

Lemma ignoresUser_emit e : ignoresUser (emit e).
Proof. exists (Done tt), [e]. reflexivity. Qed.

Lemma ignoresUser_bind {A B} (m : Script A) (k : A -> Script B) :
  ignoresUser m -> (forall a, ignoresUser (k a)) -> ignoresUser (bind m k).
Proof.
  intros (r & evs1 & Hm) Hk.
  destruct r as [a|code|error|].
  - destruct (Hk a) as (r2 & evs2 & Hka).
    exists r2, (evs1 ++ evs2)%list. intro u. unfold bind. rewrite Hm, Hka. reflexivity.
  - exists (Exited code), evs1. intro u. unfold bind. rewrite Hm. reflexivity.
  - exists (Thrown error), evs1. intro u. unfold bind. rewrite Hm. reflexivity.
  - exists Waiting, evs1. intro u. unfold bind. rewrite Hm. reflexivity.
Qed.

Lemma ignoresUser_when b (m : Script unit) : ignoresUser m -> ignoresUser (when b m).
Proof. intro H. destruct b; [exact H | apply ignoresUser_ret]. Qed.

Lemma ignoresUser_forEach {A} (l : list A) (f : A -> Script unit) :
  (forall x, ignoresUser (f x)) -> ignoresUser (forEach l f).
Proof.
  intro Hf. induction l as [|x l IH]; cbn.
  - apply ignoresUser_ret.
  - apply ignoresUser_bind; [apply Hf | intros _; exact IH].
Qed.

Lemma ignoresUser_execSync host command : ignoresUser (execSync host command).
Proof.
  unfold execSync. apply ignoresUser_bind; [apply ignoresUser_emit | intros _].
  destruct (toolSucceeds host command); [apply ignoresUser_ret | apply ignoresUser_throw].
Qed.

Ltac ignores_step :=
  first
    [ apply ignoresUser_execSync
    | apply ignoresUser_ret
    | apply ignoresUser_throw
    | apply ignoresUser_emit
    | apply ignoresUser_forEach; intro
    | apply ignoresUser_when
    | apply ignoresUser_bind; [| intro] ].

Lemma ignoresUser_generate host isTS isESM projectName packages port deploymentHelpers :
  ignoresUser (generate host isTS isESM projectName packages port deploymentHelpers).
Proof.
  unfold generate, deployment, writeFileSync, mkdirSync.
  apply ignoresUser_bind; [apply ignoresUser_execSync | intros _].
  apply ignoresUser_bind; [apply ignoresUser_execSync | intros _].
  apply ignoresUser_bind; [destruct isTS; repeat ignores_step | intros _].
  apply ignoresUser_bind; [repeat ignores_step | intros _].
  apply ignoresUser_bind; [repeat ignores_step | intros _].
  apply ignoresUser_bind; [repeat ignores_step | intros _].
  apply ignoresUser_bind;
    [destruct (updatePackageJson isTS isESM (manifest host));
     [apply ignoresUser_ret | apply ignoresUser_throw] | intros pkgJson].
  repeat ignores_step.
Qed.

(** X7. Only the name leaves the folder-conflict step.  Two runs on the
    same machine whose answers agree on everything but the name entered
    first, and that come out of the step with the same name (one by
    overwriting, one by renaming from another name), make the same calls
    from the creation of the directory on and end the same way.  Nothing
    that follows depends on the name entered first or on the way the
    name was settled. *)
Theorem conflict_only_settles_the_name host a1 u1 a2 u2 name v1 evs1 v2 evs2 :
  resolveConflict host (projectName a1) u1 = (Done name, v1, evs1) ->
  resolveConflict host (projectName a2) u2 = (Done name, v2, evs2) ->
  withName name a1 = withName name a2 ->
  exists calls,
    events (scaffold host a1 u1)
    = (evs1 ++ MkdirSync name :: Chdir name :: calls)%list
    /\ events (scaffold host a2 u2)
       = (evs2 ++ MkdirSync name :: Chdir name :: calls)%list
    /\ result (scaffold host a1 u1) = result (scaffold host a2 u2).
Proof.
  intros H1 H2 Hsame.
  assert (Hl : language a2 = language a1)
    by (apply (f_equal language) in Hsame; symmetry; exact Hsame).
  assert (Hm : moduleSystem a2 = moduleSystem a1)
    by (apply (f_equal moduleSystem) in Hsame; symmetry; exact Hsame).
  assert (Hk : packages a2 = packages a1)
    by (apply (f_equal packages) in Hsame; symmetry; exact Hsame).
  assert (Hp : port a2 = port a1)
    by (apply (f_equal port) in Hsame; symmetry; exact Hsame).
  assert (Hd : deploymentHelpers a2 = deploymentHelpers a1)
    by (apply (f_equal deploymentHelpers) in Hsame; symmetry; exact Hsame).
  destruct (ignoresUser_generate host (language a1 =? "TypeScript")%string
              (startsWith (moduleSystem a1) "ES Modules") name (packages a1)
              (port a1) (deploymentHelpers a1)) as (r & calls & Hgen).
  exists calls.
  rewrite (scaffold_run _ _ _ _ _ _ H1), (scaffold_run _ _ _ _ _ _ H2).
  rewrite Hl, Hm, Hk, Hp, Hd, !Hgen.
  split; [reflexivity | split; reflexivity].
Qed.

Lemma conflict_only_settles_the_name_witness :
  exists calls,
    events (scaffold (machine everythingTaken "demo-app-new") demoAnswers
              {| typed := [""]; chosen := ["Choose a different name"]; ticked := [] |})
    = ([ExistsSync "demo-app" true; Asked (l_message (conflictQ "demo-app"));
        Asked (i_message (renameQ "demo-app"))]
       ++ MkdirSync "demo-app-new" :: Chdir "demo-app-new" :: calls)%list
    /\ events (scaffold (machine everythingTaken "demo-app-new")
                 (withName "demo-app-new" demoAnswers)
                 {| typed := []; chosen := ["Continue (overwrite)"]; ticked := [] |})
       = ([ExistsSync "demo-app-new" true; Asked (l_message (conflictQ "demo-app-new"))]
          ++ MkdirSync "demo-app-new" :: Chdir "demo-app-new" :: calls)%list.
Proof.
  destruct (conflict_only_settles_the_name
              (machine everythingTaken "demo-app-new")
              demoAnswers
              {| typed := [""]; chosen := ["Choose a different name"]; ticked := [] |}
              (withName "demo-app-new" demoAnswers)
              {| typed := []; chosen := ["Continue (overwrite)"]; ticked := [] |}
              "demo-app-new" _ _ _ _ eq_refl eq_refl eq_refl) as (calls & H1 & H2 & _).
  exists calls. split; [exact H1 | exact H2].
Defined.

(** ** The build step and the port in the deployment files *)

Ltac flatten_text :=
  cbn [String.concat];
  repeat first [rewrite !append_assoc | progress cbn [append dq nl]];
  reflexivity.

Lemma dockerfile_text isTS port :
  dockerfileContent isTS port = join nl (dockerfileLines isTS port).
Proof.
  unfold dockerfileContent, dockerfileLines, join. destruct isTS; flatten_text.
Qed.

Lemma env_text port : envContent port = join nl (envLines port).
Proof. unfold envContent, envLines, join. flatten_text. Qed.

Lemma ci_text isTS : ciContent isTS = join nl (ciLines isTS).
Proof. destruct isTS; reflexivity. Qed.

Lemma jenkinsfile_text isTS name :
  jenkinsfileContent isTS name = join nl (jenkinsfileLines isTS name).
Proof.
  unfold jenkinsfileContent, jenkinsfileLines, join.
  destruct isTS; cbn [app]; flatten_text.
Qed.

Lemma lowerChar_keeps_lines c : isLF (lowerChar c) = isLF c.
Proof.
  destruct c as [[] [] [] [] [] [] [] []]; reflexivity.
Qed.

Lemma singleLine_toLowerCase s : singleLine (toLowerCase s) = singleLine s.
Proof.
  induction s as [|c s IH]; [reflexivity |].
  cbn [toLowerCase singleLine]. rewrite lowerChar_keeps_lines, IH. reflexivity.
Qed.

Lemma lowerChar_not_upper c : isUpper (lowerChar c) = false.
Proof.
  destruct c as [[] [] [] [] [] [] [] []]; reflexivity.
Qed.

Lemma toLowerCase_no_upper s : hasUpper (toLowerCase s) = false.
Proof.
  induction s as [|c s IH]; [reflexivity |].
  cbn [toLowerCase hasUpper]. rewrite lowerChar_not_upper, IH. reflexivity.
Qed.

Lemma dockerfile_lines isTS port :
  singleLine port = true ->
  textLines (dockerfileContent isTS port) = dockerfileLines isTS port.
Proof.
  intro Hp. rewrite dockerfile_text.
  apply textLines_join; [discriminate |].
  unfold dockerfileLines. cbn [forallb].
  rewrite !singleLine_app, Hp. destruct isTS; reflexivity.
Qed.

Lemma env_lines port :
  singleLine port = true -> textLines (envContent port) = envLines port.
Proof.
  intro Hp. rewrite env_text.
  apply textLines_join; [discriminate |].
  unfold envLines. cbn [forallb]. rewrite !singleLine_app, Hp. reflexivity.
Qed.

Lemma jenkinsfile_lines isTS name :
  singleLine name = true ->
  textLines (jenkinsfileContent isTS name) = jenkinsfileLines isTS name.
Proof.
  intro Hn. rewrite jenkinsfile_text.
  apply textLines_join; [destruct isTS; discriminate |].
  unfold jenkinsfileLines. rewrite !forallb_app. cbn [forallb].
  rewrite !singleLine_app, singleLine_toLowerCase, Hn.
  destruct isTS; reflexivity.
Qed.

(** X8. The build step is generated exactly for TypeScript: the Dockerfile
    has the line RUN npm run build, the Jenkinsfile the build command and
    the workflow the build run if and only if the language is TypeScript.
    Whatever the language, the port text is on the EXPOSE line of the
    Dockerfile and on the PORT line of .env as typed, and the image tag of
    the Jenkinsfile is the project name in lower case.  The project name
    is one line of ASCII characters, the port one line. *)
Theorem build_step_follows_the_language isTS name port :
  asciiOnly name = true ->
  singleLine name = true ->
  singleLine port = true ->
  hasLine "RUN npm run build" (dockerfileContent isTS port) = isTS
  /\ hasLine "        sh 'npm run build'" (jenkinsfileContent isTS name) = isTS
  /\ hasLine "    - run: npm run build" (ciContent isTS) = isTS
  /\ hasLine ("EXPOSE " ++ port) (dockerfileContent isTS port) = true
  /\ hasLine ("PORT=" ++ port) (envContent port) = true
  /\ hasLine ("        sh 'docker build -t " ++ toLowerCase name ++ ":latest .'")
       (jenkinsfileContent isTS name) = true
  /\ hasUpper (toLowerCase name) = false.
Proof.
  intros _ Hn Hp. unfold hasLine.
  rewrite (dockerfile_lines isTS port Hp), (jenkinsfile_lines isTS name Hn),
    (env_lines port Hp).
  split; [destruct isTS; reflexivity |].
  split; [destruct isTS; reflexivity |].
  split; [destruct isTS; reflexivity |].
  split; [| split; [| split; [| apply toLowerCase_no_upper]]].
  - apply includes_In. unfold dockerfileLines. cbn. auto 20.
  - apply includes_In. unfold envLines. cbn. auto.
  - apply includes_In. unfold jenkinsfileLines.
    apply in_or_app. right. apply in_or_app. right. cbn. auto 20.
Qed.

Lemma build_step_follows_the_language_witness :
  hasLine "RUN npm run build" (dockerfileContent false "3000") = false
  /\ hasLine "EXPOSE 3000" (dockerfileContent false "3000") = true.
Proof.
  destruct (build_step_follows_the_language false "demo-app" "3000"
              eq_refl eq_refl eq_refl)
    as (H1 & _ & _ & H2 & _).
  split; [exact H1 | exact H2].
Defined.

(** ** What the port validation reads *)

Lemma digit_is_plain c :
  isDigit c = true ->
  isWhite c = false /\ c <> "-"%char /\ c <> "+"%char.
Proof.
  destruct c as [[] [] [] [] [] [] [] []]; cbn; intro H;
    try discriminate H; repeat split; discriminate.
Qed.

Lemma digitValue_isDigit c : isDigit c = true -> exists d, digitValue c = Some d.
Proof.
  unfold isDigit. destruct (digitValue c) as [d|]; [eauto | discriminate].
Qed.

Lemma trimStart_digit c r :
  isDigit c = true -> trimStart (String c r) = String c r.
Proof.
  intro Hc. unfold trimStart.
  destruct c as [[] [] [] [] [] [] [] []]; try discriminate Hc;
    destruct r as [|c2 [|c3 r]]; reflexivity.
Qed.

Lemma parseInt10_digit c r :
  isDigit c = true ->
  parseInt10 (String c r) = Int (digitsValue (leadingDigits (String c r))).
Proof.
  intro Hc.
  destruct (digit_is_plain c Hc) as (Hw & Hminus & Hplus).
  destruct (digitValue_isDigit c Hc) as (d & Hd).
  unfold parseInt10. rewrite (trimStart_digit c r Hc).
  assert (Hsign : (let '(sign, s2) :=
                     match String c r with
                     | String "-" r0 => ((-1)%Z, r0)
                     | String "+" r0 => (1%Z, r0)
                     | _ => (1%Z, String c r)
                     end in
                   match leadingDigits s2 with
                   | [] => NaN
                   | ds => Int (sign * digitsValue ds)
                   end)
                  = match leadingDigits (String c r) with
                    | [] => NaN
                    | ds => Int (1 * digitsValue ds)
                    end).
  { destruct c as [[] [] [] [] [] [] [] []];
      try reflexivity; exfalso; (apply Hminus; reflexivity) || (apply Hplus; reflexivity). }
  rewrite Hsign. cbn [leadingDigits]. rewrite Hd.
  rewrite Z.mul_1_l. reflexivity.
Qed.

Lemma leadingDigits_app digits rest :
  allDigits digits = true -> startsWithDigit rest = false ->
  leadingDigits (digits ++ rest) = leadingDigits digits.
Proof.
  intros Hd Hr. induction digits as [|c digits IH]; cbn.
  - destruct rest as [|c r]; [reflexivity |].
    cbn in Hr. unfold isDigit in Hr. cbn.
    destruct (digitValue c); [discriminate | reflexivity].
  - cbn in Hd. apply andb_prop in Hd as [Hc Hd].
    destruct (digitValue c); [| reflexivity]. rewrite (IH Hd). reflexivity.
Qed.

Lemma validatePort_parse a b :
  parseInt10 a = parseInt10 b -> validates portQ a = validates portQ b.
Proof. intro H. unfold validates. cbn. unfold validatePort. rewrite H. reflexivity. Qed.

(** X9. The port validation reads the leading run of digits and nothing
    else: for a non-empty run of digits, any text appended that does not
    start with a digit, and any zero put in front, leave the parsed value
    and the verdict unchanged.  So when [digits] is accepted, so is
    [digits] followed by arbitrary text and [digits] with leading zeros. *)
Theorem port_validation_reads_leading_digits_only digits rest :
  allDigits digits = true ->
  digits <> "" ->
  startsWithDigit rest = false ->
  parseInt10 (digits ++ rest) = parseInt10 digits
  /\ parseInt10 ("0" ++ digits) = parseInt10 digits
  /\ validates portQ (digits ++ rest) = validates portQ digits
  /\ validates portQ ("0" ++ digits) = validates portQ digits.
Proof.
  intros Hd Hne Hr.
  destruct digits as [|c digits]; [contradiction |].
  pose proof Hd as Hd'. cbn in Hd'. apply andb_prop in Hd' as [Hc _].
  assert (H1 : parseInt10 (String c digits ++ rest) = parseInt10 (String c digits)).
  { cbn [append]. rewrite !parseInt10_digit by exact Hc.
    change (String c (digits ++ rest)) with (String c digits ++ rest)%string.
    rewrite (leadingDigits_app _ _ Hd Hr). reflexivity. }
  assert (H2 : parseInt10 ("0" ++ String c digits) = parseInt10 (String c digits)).
  { cbn [append]. rewrite !parseInt10_digit by (exact Hc || reflexivity).
    destruct (digitValue_isDigit c Hc) as (d & Hv).
    cbn [leadingDigits]. rewrite Hv. reflexivity. }
  split; [exact H1 |].
  split; [exact H2 |].
  split; apply validatePort_parse; assumption.
Qed.

Lemma port_validation_reads_leading_digits_only_witness :
  validates portQ ("4000" ++ "abc") = validates portQ "4000"
  /\ validates portQ ("0" ++ "4000") = validates portQ "4000".
Proof.
  destruct (port_validation_reads_leading_digits_only "4000" "abc" eq_refl)
    as (_ & _ & H1 & H2); [discriminate | reflexivity |].
  split; [exact H1 | exact H2].
Defined.

(** ** Where the relative imports point *)

Example words_example :
  words "const { v4: uuidv4 } = require('uuid'); module.exports = a_b;"
  = ["const"; "v4"; "uuidv4"; "require"; "uuid"; "module"; "exports"; "a_b"].
Proof. reflexivity. Qed.

Example importTarget_example :
  importTarget true true "./utils/logger.js" = Some "src/utils/logger.ts"
  /\ importTarget false false "./app" = Some "src/app.js"
  /\ importTarget false true "express" = None.
Proof. repeat split; reflexivity. Qed.

Lemma other_files_import_nothing isTS isESM :
  relativeImports (loggerContent isTS isESM) = []
  /\ relativeImports (dbContent isTS isESM) = []
  /\ relativeImports (swaggerContent isTS isESM) = []
  /\ relativeImports (transactionIdMiddlewareContent isTS isESM) = []
  /\ relativeImports (loggerConsoleContent isTS isESM) = []
  /\ relativeImports (errorHandlerContent isTS isESM) = []
  /\ relativeImports (healthCheckRouteContent isTS isESM) = [].
Proof. destruct isTS, isESM; repeat split; vm_compute; reflexivity. Qed.

Lemma stems_resolve isTS isESM port stems :
  forallb (fun stem =>
             match importTarget isTS isESM (stem ++ esmExt isESM) with
             | Some target => includes (map fst (sourceFiles isTS isESM port)) target
             | None => false
             end) stems = true ->
  Forall (fun spec =>
            exists target,
              importTarget isTS isESM spec = Some target
              /\ In target (map fst (sourceFiles isTS isESM port)))
         (map (fun stem => stem ++ esmExt isESM) stems).
Proof.
  induction stems as [|stem stems IH]; cbn [forallb map]; [constructor |].
  intro H. apply andb_prop in H as [H1 H2].
  constructor; [| exact (IH H2)].
  destruct (importTarget isTS isESM (stem ++ esmExt isESM)) as [target|];
    [| discriminate].
  exists target. split; [reflexivity | apply includes_In; exact H1].
Qed.

(** X10. No relative import dangles.  In all four variants, for a port
    text without quote characters, every relative module specifier in a
    generated source file names a file that is generated too (the stem
    under src/, with the extension of the language); and the only files
    that import from the project are the app entry and the server entry,
    both in src/ itself. *)
Theorem relative_imports_name_generated_files (isTS isESM : bool) (port : string) :
  quoteFree port = true ->
  forall path content,
    In (path, content) (sourceFiles isTS isESM port) ->
    Forall (fun spec =>
              exists target,
                importTarget isTS isESM spec = Some target
                /\ In target (map fst (sourceFiles isTS isESM port)))
           (relativeImports content)
    /\ (relativeImports content <> [] ->
        path = appFile isTS \/ path = serverFile isTS).
Proof.
  intros Hp path content Hin.
  destruct (other_files_import_nothing isTS isESM)
    as (H1 & H2 & H3 & H4 & H5 & H6 & H7).
  unfold sourceFiles in Hin. cbn [In] in Hin.
  repeat destruct Hin as [Hin | Hin]; try contradiction;
    injection Hin as <- <-.
  9: { split; [| auto].
       rewrite server_imports by exact Hp.
       apply stems_resolve. destruct isTS, isESM; vm_compute; reflexivity. }
  8: { split; [| auto].
       rewrite app_imports.
       apply stems_resolve. destruct isTS, isESM; vm_compute; reflexivity. }
  all: rewrite ?H1, ?H2, ?H3, ?H4, ?H5, ?H6, ?H7;
    split; [constructor | intro H; contradiction H; reflexivity].
Qed.

Lemma relative_imports_name_generated_files_witness :
  Forall (fun spec =>
            exists target,
              importTarget true true spec = Some target
              /\ In target (map fst (sourceFiles true true "4000")))
         (relativeImports (serverFileContent true true "4000")).
Proof.
  apply (relative_imports_name_generated_files true true "4000" eq_refl
           (serverFile true) (serverFileContent true true "4000")).
  unfold sourceFiles. cbn [In]. auto 20.
Defined.

(** ** Module syntax and module system *)

Lemma closed_app cur a b :
  closed cur (a ++ b) = (closed cur a ++ closed (curAfter cur a) b)%list.
Proof.
  revert cur. induction a as [|c a IH]; intro cur; [reflexivity |].
  cbn. destruct (isWordChar c); [apply IH |].
  rewrite IH, app_assoc. reflexivity.
Qed.

Lemma curAfter_app cur a b :
  curAfter cur (a ++ b) = curAfter (curAfter cur a) b.
Proof.
  revert cur. induction a as [|c a IH]; intro cur; [reflexivity |].
  cbn. destruct (isWordChar c); apply IH.
Qed.

Lemma digit_is_word_char c : isDigit c = true -> isWordChar c = true.
Proof.
  destruct c as [[] [] [] [] [] [] [] []]; cbn; intro H;
    (discriminate H || reflexivity).
Qed.

Lemma closed_digits cur p : allDigits p = true -> closed cur p = [].
Proof.
  revert cur. induction p as [|c p IH]; intros cur H; [reflexivity |].
  cbn in H. apply andb_prop in H as [Hc Hp].
  cbn. rewrite (digit_is_word_char c Hc). apply IH, Hp.
Qed.

Lemma curAfter_digits cur p :
  allDigits p = true -> curAfter cur p = rev_string cur p.
Proof.
  revert cur. induction p as [|c p IH]; intros cur H; [reflexivity |].
  cbn in H. apply andb_prop in H as [Hc Hp].
  cbn. rewrite (digit_is_word_char c Hc). apply IH, Hp.
Qed.

Lemma allDigits_rev acc s :
  allDigits (rev_string acc s) = allDigits acc && allDigits s.
Proof.
  revert acc. induction s as [|c s IH]; intro acc; cbn.
  - rewrite andb_true_r. reflexivity.
  - rewrite IH. cbn. rewrite andb_assoc, (andb_comm (isDigit c)). reflexivity.
Qed.

Lemma includes_app (a b : list string) w :
  includes (a ++ b) w = includes a w || includes b w.
Proof. apply existsb_app. Qed.

Lemma digits_are_not_the_word w p :
  allDigits w = false -> allDigits p = true ->
  includes (flush (rev_string EmptyString p)) w = false.
Proof.
  intros Hw Hp. unfold flush.
  destruct (rev_string EmptyString p) eqn:E; [reflexivity |].
  rewrite <- E. cbn. rewrite orb_false_r.
  apply String.eqb_neq. intros ->.
  rewrite !allDigits_rev, Hp in Hw. discriminate.
Qed.

(** A run of digits spliced in between a text that ends outside a word
    and a character that is not part of a word is a word of its own. *)
Lemma mentions_splice w pre p c post :
  allDigits w = false -> allDigits p = true ->
  curAfter EmptyString pre = EmptyString -> isWordChar c = false ->
  mentions w (pre ++ p ++ String c post) = mentions w pre || mentions w post.
Proof.
  intros Hw Hp Hpre Hc. unfold mentions, words.
  rewrite !closed_app, !curAfter_app, Hpre.
  rewrite (closed_digits _ _ Hp), (curAfter_digits _ _ Hp).
  cbn [closed curAfter app]. rewrite Hc.
  rewrite !includes_app. cbn [flush includes existsb orb].
  rewrite (digits_are_not_the_word _ _ Hw Hp).
  rewrite ?orb_false_r, <- ?orb_assoc. reflexivity.
Qed.

Lemma server_mentions w isTS isESM port :
  allDigits w = false -> allDigits port = true ->
  mentions w (serverFileContent isTS isESM port)
  = mentions w (serverFileContent isTS isESM "0").
Proof.
  intros Hw Hp.
  destruct isTS, isESM; cbv beta iota delta [serverFileContent esmExt];
    match goal with
    | |- mentions w (?a ++ ?b ++ ?c ++ ?d ++ ?e ++ ?f ++ ?g ++ port ++ ?post)
         = mentions w (_ ++ _ ++ _ ++ _ ++ _ ++ _ ++ _ ++ ?z ++ _) =>
        change (a ++ b ++ c ++ d ++ e ++ f ++ g ++ port ++ post)
          with ((a ++ b ++ c ++ d ++ e ++ f ++ g) ++ port ++ post);
        change (a ++ b ++ c ++ d ++ e ++ f ++ g ++ z ++ post)
          with ((a ++ b ++ c ++ d ++ e ++ f ++ g) ++ z ++ post)
    | |- _ => idtac
    end;
    rewrite !mentions_splice by (assumption || reflexivity); reflexivity.
Qed.

(** Whether some source file mentions a word can be read off the files
    generated for the port 0. *)
Lemma sources_mention w isTS isESM port path content :
  allDigits w = false -> allDigits port = true ->
  In (path, content) (sourceFiles isTS isESM port) ->
  mentions w content = true ->
  existsb (fun f => mentions w (snd f)) (sourceFiles isTS isESM "0") = true.
Proof.
  intros Hw Hp Hin Hm.
  apply existsb_exists.
  unfold sourceFiles in Hin. cbn [In] in Hin.
  destruct Hin as [Hin | Hin];
    [exists (path, content); split; [rewrite <- Hin; cbn -[loggerContent]; auto 20 | exact Hm] |].
  destruct Hin as [Hin | Hin];
    [exists (path, content); split; [rewrite <- Hin; cbn -[loggerContent]; auto 20 | exact Hm] |].
  destruct Hin as [Hin | Hin];
    [exists (path, content); split; [rewrite <- Hin; cbn -[loggerContent]; auto 20 | exact Hm] |].
  destruct Hin as [Hin | Hin];
    [exists (path, content); split; [rewrite <- Hin; cbn -[loggerContent]; auto 20 | exact Hm] |].
  destruct Hin as [Hin | Hin];
    [exists (path, content); split; [rewrite <- Hin; cbn -[loggerContent]; auto 20 | exact Hm] |].
  destruct Hin as [Hin | Hin];
    [exists (path, content); split; [rewrite <- Hin; cbn -[loggerContent]; auto 20 | exact Hm] |].
  destruct Hin as [Hin | Hin];
    [exists (path, content); split; [rewrite <- Hin; cbn -[loggerContent]; auto 20 | exact Hm] |].
  destruct Hin as [Hin | Hin];
    [exists (path, content); split; [rewrite <- Hin; cbn -[loggerContent]; auto 20 | exact Hm] |].
  destruct Hin as [Hin | []].
  exists (serverFile isTS, serverFileContent isTS isESM "0").
  split; [cbn -[loggerContent]; auto 20 |].
  cbn [snd]. rewrite <- (server_mentions w isTS isESM port Hw Hp).
  assert (Hc : content = serverFileContent isTS isESM port) by congruence.
  rewrite <- Hc. exact Hm.
Qed.

(** X11. The module syntax of the generated sources follows the module
    system.  Under ES modules no source file, TypeScript or JavaScript,
    contains the word require or the word module (as in module.exports);
    under CommonJS no JavaScript source file contains the word import or
    export.  (The port text is a run of digits; a word is a maximal run
    of letters, digits, underscore and dollar.) *)
Theorem module_syntax_follows_the_module_system (isTS : bool) (port : string) :
  allDigits port = true ->
  (forall path content,
      In (path, content) (sourceFiles isTS true port) ->
      mentions "require" content = false /\ mentions "module" content = false)
  /\ (forall path content,
        In (path, content) (sourceFiles false false port) ->
        mentions "import" content = false /\ mentions "export" content = false).
Proof.
  intro Hp.
  assert (Hno : forall w a b path content,
             allDigits w = false ->
             existsb (fun f => mentions w (snd f)) (sourceFiles a b "0") = false ->
             In (path, content) (sourceFiles a b port) ->
             mentions w content = false).
  { intros w a b path content Hw Hnone Hin.
    destruct (mentions w content) eqn:Hm; [| reflexivity].
    rewrite (sources_mention w a b port path content Hw Hp Hin Hm) in Hnone.
    discriminate. }
  split; intros path content Hin; split;
    (eapply Hno; [reflexivity | | exact Hin]);
    try destruct isTS; vm_compute; reflexivity.
Qed.

Lemma module_syntax_follows_the_module_system_witness :
  mentions "require" (serverFileContent true true "4000") = false
  /\ mentions "import" (serverFileContent false false "4000") = false.
Proof.
  destruct (module_syntax_follows_the_module_system true "4000" eq_refl) as [Hesm Hcjs].
  split.
  - apply (Hesm (serverFile true) (serverFileContent true true "4000")). cbn -[loggerContent]. auto 20.
  - apply (Hcjs (serverFile false) (serverFileContent false false "4000")). cbn -[loggerContent]. auto 20.
Defined.

(** ** One write per file, directories first *)

Lemma writtenPaths_questions evs : Forall isQuestion evs -> writtenPaths evs = [].
Proof.
  induction 1 as [|e evs He _ IH]; [reflexivity |].
  destruct e; try contradiction. exact IH.
Qed.

Lemma writtenPaths_files (files : list (string * string)) :
  writtenPaths (map (fun f => WriteFileSync (fst f) (snd f)) files) = map fst files.
Proof.
  induction files as [|f files IH]; [reflexivity |]. cbn. rewrite IH. reflexivity.
Qed.

Lemma pkgPath_not_among host name (l : list string) :
  forallb (fun q => negb (isSuffix "/package.json" q)) l = true ->
  ~ In (pkgPath host name) l.
Proof.
  intros Hall Hin.
  rewrite forallb_forall in Hall. specialize (Hall _ Hin).
  unfold pkgPath, path_join, join in Hall. cbn [String.concat] in Hall.
  rewrite isSuffix_app in Hall. discriminate.
Qed.

Lemma deployment_paths isTS name port helpers :
  writtenPaths (deploymentPlan isTS name port helpers)
  = ((if includes helpers "dockerfile" then ["Dockerfile"] else [])
     ++ (if includes helpers "compose" then ["docker-compose.yml"] else [])
     ++ (if includes helpers "jenkins" then ["Jenkinsfile"] else [])
     ++ (if includes helpers "github" then [".github/workflows/ci.yml"] else []))%list.
Proof.
  unfold deploymentPlan.
  destruct (includes helpers "dockerfile"), (includes helpers "compose"),
    (includes helpers "jenkins"), (includes helpers "github"); reflexivity.
Qed.

Lemma NoDup_insert (x : string) (l1 l2 : list string) :
  ~ In x (l1 ++ l2) -> NoDup (l1 ++ l2) -> NoDup (l1 ++ x :: l2).
Proof.
  induction l1 as [|y l1 IH]; cbn; intros Hx Hnd.
  - constructor; assumption.
  - inversion Hnd as [|? ? Hy Hnd']; subst.
    constructor.
    + intro Hin. apply in_app_or in Hin as [Hin | [<- | Hin]].
      * apply Hy, in_or_app. left. exact Hin.
      * apply Hx. left. reflexivity.
      * apply Hy, in_or_app. right. exact Hin.
    + apply IH; [| exact Hnd']. intro Hin. apply Hx. right. exact Hin.
Qed.

(** X12. A run that completes writes every file once: no path is written
    twice, whatever the variant and the helpers selected (package.json,
    which npm created, is written once by the script). *)
Theorem no_file_is_written_twice host answers u u' evs :
  scaffold host answers u = (Done tt, u', evs) ->
  NoDup (writtenPaths evs).
Proof.
  intro H.
  destruct (scaffold_done _ _ _ _ _ H)
    as (name & u1 & evs1 & pkgJson & Hres & Hup & Htools & -> & ->).
  destruct (resolveConflict_events host (projectName answers) u) as (qs & Hev & Hqs).
  rewrite Hres in Hev. cbn in Hev. subst evs1.
  set (isTS := (language answers =? "TypeScript")%string).
  set (isESM := startsWith (moduleSystem answers) "ES Modules").
  cbn [app writtenPaths].
  rewrite writtenPaths_app, (writtenPaths_questions _ Hqs). cbn [app writtenPaths].
  rewrite writtenPaths_app, deployment_paths.
  unfold corePlan.
  rewrite !writtenPaths_app, writtenPaths_mkdirs, writtenPaths_files.
  cbn [app writtenPaths].
  assert (Hts : writtenPaths (if isTS
       then [ExecSync (devInstall true);
             WriteFileSync "tsconfig.json" (stringify2 (tsconfig isESM))]
       else [ExecSync (devInstall false)])
       = (if isTS then ["tsconfig.json"] else [])) by (destruct isTS; reflexivity).
  rewrite Hts. clear Hts.
  rewrite <- !app_assoc. cbn [app].
  destruct isTS; cbn [app].
  - apply (NoDup_insert _ ["tsconfig.json"; ".env"]).
    + apply pkgPath_not_among.
      destruct (includes (deploymentHelpers answers) "dockerfile"),
        (includes (deploymentHelpers answers) "compose"),
        (includes (deploymentHelpers answers) "jenkins"),
        (includes (deploymentHelpers answers) "github"); reflexivity.
    + apply NoDup_by_nodup.
      destruct (includes (deploymentHelpers answers) "dockerfile"),
        (includes (deploymentHelpers answers) "compose"),
        (includes (deploymentHelpers answers) "jenkins"),
        (includes (deploymentHelpers answers) "github"); reflexivity.
  - apply (NoDup_insert _ [".env"]).
    + apply pkgPath_not_among.
      destruct (includes (deploymentHelpers answers) "dockerfile"),
        (includes (deploymentHelpers answers) "compose"),
        (includes (deploymentHelpers answers) "jenkins"),
        (includes (deploymentHelpers answers) "github"); reflexivity.
    + apply NoDup_by_nodup.
      destruct (includes (deploymentHelpers answers) "dockerfile"),
        (includes (deploymentHelpers answers) "compose"),
        (includes (deploymentHelpers answers) "jenkins"),
        (includes (deploymentHelpers answers) "github"); reflexivity.
Qed.

Lemma no_file_is_written_twice_witness :
  NoDup (writtenPaths
           (events (scaffold (machine nothingTaken "demo-app") demoAnswers demoSession))).
Proof.
  apply (no_file_is_written_twice (machine nothingTaken "demo-app") demoAnswers
           demoSession demoSession _ eq_refl).
Defined.

Example dirname_examples :
  map dirname ["src/utils/logger.ts"; "Dockerfile"; ".github/workflows/ci.yml"; "/a"]
  = ["src/utils"; ""; ".github/workflows"; ""].
Proof. reflexivity. Qed.

Lemma dirsFirst_app home made a b :
  dirsFirst home made (a ++ b)
  = dirsFirst home made a && dirsFirst home (madeAfter made a) b.
Proof.
  revert made. induction a as [|e a IH]; intro made; [reflexivity |].
  destruct e; cbn; rewrite ?IH, ?andb_assoc; reflexivity.
Qed.

Lemma beforeLast_join c file :
  beforeLast "/" file = None ->
  beforeLast "/" (c ++ "/" ++ file) = Some c.
Proof.
  intro Hf. induction c as [|x c IH]; cbn [append beforeLast].
  - rewrite Hf. reflexivity.
  - cbn [append] in IH. rewrite IH. reflexivity.
Qed.

Lemma dirname_pkgPath host name : dirname (pkgPath host name) = cwdAfter host name.
Proof.
  unfold dirname, pkgPath, path_join, join. cbn [String.concat].
  rewrite beforeLast_join by reflexivity. reflexivity.
Qed.

(** X13. Directories come before the files in them.  After the project
    directory is entered, every write of a run that completes goes to a
    file directly in the project directory or to a directory that an
    earlier mkdir of the run has made: the folders under src before the
    source files, .github/workflows before the workflow. *)
Theorem directories_are_made_before_their_files host answers u u' evs :
  scaffold host answers u = (Done tt, u', evs) ->
  exists name before calls,
    evs = (before ++ MkdirSync name :: Chdir name :: calls)%list
    /\ projectDirectory evs = Some name
    /\ writtenPaths before = []
    /\ dirsFirst (cwdAfter host name) [] calls = true.
Proof.
  intro H.
  destruct (scaffold_done _ _ _ _ _ H)
    as (name & u1 & evs1 & pkgJson & Hres & Hup & Htools & -> & ->).
  set (isTS := (language answers =? "TypeScript")%string).
  set (isESM := startsWith (moduleSystem answers) "ES Modules").
  exists name, evs1,
    (corePlan host isTS isESM name (packages answers) (port answers) pkgJson
     ++ deploymentPlan isTS name (port answers) (deploymentHelpers answers))%list.
  split; [reflexivity |].
  split; [apply (projectDirectory_scaffold _ _ _ _ _ _ _ Hres) |].
  split.
  { destruct (resolveConflict_events host (projectName answers) u) as (qs & Hev & Hqs).
    rewrite Hres in Hev. cbn in Hev. subst evs1.
    cbn. apply writtenPaths_questions, Hqs. }
  set (dep := deploymentPlan isTS name (port answers) (deploymentHelpers answers)).
  set (files := map (fun f => WriteFileSync (fst f) (snd f))
                    (sourceFiles isTS isESM (port answers))).
  assert (E : (corePlan host isTS isESM name (packages answers) (port answers) pkgJson
               ++ dep)%list
              = (planBeforeManifest host isTS isESM name (packages answers) (port answers)
                 ++ WriteFileSync (pkgPath host name) (stringify2 pkgJson)
                 :: (files ++ dep))%list).
  { unfold corePlan, planBeforeManifest. fold files.
    rewrite <- !app_assoc. reflexivity. }
  rewrite E, dirsFirst_app. cbn [dirsFirst].
  rewrite dirname_pkgPath, String.eqb_refl, !orb_true_r. cbn [andb].
  unfold files, dep, deploymentPlan.
  destruct isTS, (includes (deploymentHelpers answers) "dockerfile"),
    (includes (deploymentHelpers answers) "compose"),
    (includes (deploymentHelpers answers) "jenkins"),
    (includes (deploymentHelpers answers) "github"); vm_compute; reflexivity.
Qed.

Lemma directories_are_made_before_their_files_witness :
  exists name before calls,
    events (scaffold (machine nothingTaken "demo-app") demoAnswers demoSession)
    = (before ++ MkdirSync name :: Chdir name :: calls)%list
    /\ dirsFirst (cwdAfter (machine nothingTaken "demo-app") name) [] calls = true.
Proof.
  destruct (directories_are_made_before_their_files
              (machine nothingTaken "demo-app") demoAnswers demoSession demoSession
              _ eq_refl) as (name & before & calls & H1 & _ & _ & H2).
  exists name, before, calls. split; [exact H1 | exact H2].
Defined.

(** ** Packages installed and packages loaded *)

Lemma commands_app a b : commands (a ++ b) = (commands a ++ commands b)%list.
Proof.
  induction a as [|e a IH]; [reflexivity |].
  destruct e; cbn; rewrite ?IH; reflexivity.
Qed.

Lemma commands_questions evs : Forall isQuestion evs -> commands evs = [].
Proof.
  induction 1 as [|e evs He _ IH]; [reflexivity |].
  destruct e; try contradiction. exact IH.
Qed.

Lemma commands_no_exec evs :
  Forall (fun e => match e with ExecSync _ => False | _ => True end) evs ->
  commands evs = [].
Proof.
  induction 1 as [|e evs He _ IH]; [reflexivity |].
  destruct e; try contradiction; exact IH.
Qed.

Lemma sourceFiles_paths isTS isESM port :
  map fst (sourceFiles isTS isESM port) = sourcePaths isTS.
Proof. reflexivity. Qed.

Lemma sourcePaths_apart isTS :
  NoDup (sourcePaths isTS) /\ forallb sourceOnly (sourcePaths isTS) = true.
Proof.
  split; [apply NoDup_by_nodup |]; destruct isTS; reflexivity.
Qed.

Lemma written_unique (files : list (string * string)) path content :
  NoDup (map fst files) ->
  In (path, content) files ->
  written path (map (fun f => WriteFileSync (fst f) (snd f)) files) = [content].
Proof.
  induction files as [|[q c] files IH]; [contradiction |].
  cbn [map fst snd written writeTo In]. intros Hnd Hin.
  inversion Hnd as [|? ? Hq Hnd']; subst.
  destruct Hin as [Hin | Hin].
  - injection Hin as -> ->. rewrite String.eqb_refl.
    rewrite written_files; [reflexivity |].
    apply Bool.not_true_is_false. intro Hex.
    apply existsb_exists in Hex as (q & Hq' & Heq).
    apply String.eqb_eq in Heq. subst q. contradiction.
  - destruct (String.eqb_spec q path) as [-> | Hne].
    + exfalso. apply Hq. change path with (fst (path, content)).
      apply in_map. exact Hin.
    + apply IH; assumption.
Qed.

(** Every source file of a completed run is written once, with its body. *)
Lemma source_file_written host answers u u' evs path content :
  scaffold host answers u = (Done tt, u', evs) ->
  In (path, content)
     (sourceFiles (language answers =? "TypeScript")%string
        (startsWith (moduleSystem answers) "ES Modules") (port answers)) ->
  written path evs = [content].
Proof.
  intros H Hin.
  destruct (scaffold_done _ _ _ _ _ H)
    as (name & u1 & evs1 & pkgJson & Hres & Hup & Htools & -> & ->).
  set (isTS := (language answers =? "TypeScript")%string) in *.
  set (isESM := startsWith (moduleSystem answers) "ES Modules") in *.
  destruct (sourcePaths_apart isTS) as [Hnd Hall].
  assert (Hpath : sourceOnly path = true).
  { rewrite forallb_forall in Hall. apply Hall.
    rewrite <- (sourceFiles_paths isTS isESM (port answers)).
    change path with (fst (path, content)). apply in_map. exact Hin. }
  unfold sourceOnly in Hpath.
  apply andb_prop in Hpath as [Hpath Hdep].
  apply andb_prop in Hpath as [Hpath Hpkg].
  apply andb_prop in Hpath as [Hts Henv].
  apply negb_true_iff in Hts, Henv, Hpkg, Hdep.
  replace evs1 with (events (resolveConflict host (projectName answers) u))
    by (rewrite Hres; reflexivity).
  rewrite written_conflict_prefix. cbn [written writeTo].
  rewrite written_app, (deployment_writes_elsewhere _ _ _ _ _ Hdep), app_nil_r.
  unfold corePlan. rewrite !written_app, written_mkdirs.
  rewrite <- (sourceFiles_paths isTS isESM (port answers)) in Hnd.
  rewrite (written_unique _ _ _ Hnd Hin).
  assert (Hpk : (pkgPath host name =? path)%string = false)
    by (rewrite String.eqb_sym; apply eqb_pkgPath; exact Hpkg).
  rewrite String.eqb_sym in Hts. rewrite String.eqb_sym in Henv.
  cbn [written writeTo app]. rewrite Henv, Hpk.
  destruct isTS; cbn [written writeTo app]; rewrite ?Hts; reflexivity.
Qed.

Lemma commands_scaffold host answers u u' evs :
  scaffold host answers u = (Done tt, u', evs) ->
  commands evs
  = [ "npm init -y"; "npm install " ++ join " " (packages answers);
      devInstall (language answers =? "TypeScript")%string ].
Proof.
  intro H.
  destruct (scaffold_done _ _ _ _ _ H)
    as (name & u1 & evs1 & pkgJson & Hres & Hup & Htools & -> & ->).
  set (isTS := (language answers =? "TypeScript")%string) in *.
  destruct (resolveConflict_events host (projectName answers) u) as (qs & Hev & Hqs).
  rewrite Hres in Hev. cbn in Hev. subst evs1.
  cbn [app commands]. rewrite commands_app, (commands_questions _ Hqs).
  cbn [app commands]. rewrite commands_app.
  unfold corePlan, deploymentPlan.
  rewrite !commands_app.
  rewrite (commands_no_exec (map MkdirSync folders)) by (repeat constructor).
  rewrite (commands_no_exec (map _ (sourceFiles _ _ _))) by (repeat constructor).
  destruct isTS, (includes (deploymentHelpers answers) "dockerfile"),
    (includes (deploymentHelpers answers) "compose"),
    (includes (deploymentHelpers answers) "jenkins"),
    (includes (deploymentHelpers answers) "github"); reflexivity.
Qed.

Lemma sources_load isTS isESM :
  includes (literals (appFileContent isTS isESM)) "express" = true
  /\ includes (literals (appFileContent isTS isESM)) "cors" = true
  /\ includes (literals (appFileContent isTS isESM)) "cookie-parser" = true
  /\ includes (literals (transactionIdMiddlewareContent isTS isESM)) "uuid" = true
  /\ includes (literals (swaggerContent isTS isESM)) "swagger-ui-express" = true
  /\ includes (literals (loggerContent isTS isESM)) "winston" = true.
Proof. destruct isTS, isESM; repeat split; vm_compute; reflexivity. Qed.

(** The server entry loads dotenv before the place of the port text, so
    whatever that text is. *)
Lemma server_loads_dotenv isTS isESM port :
  In "dotenv" (literals (serverFileContent isTS isESM port)).
Proof.
  unfold literals.
  destruct isTS, isESM; cbv beta iota delta [serverFileContent esmExt];
    match goal with
    | |- In _ (scan None (?a ++ ?b ++ ?c ++ ?d ++ ?e ++ ?f ++ ?g ++ port ++ ?post)) =>
        change (a ++ b ++ c ++ d ++ e ++ f ++ g ++ port ++ post)
          with ((a ++ b ++ c ++ d ++ e ++ f ++ g) ++ port ++ post)
    | |- _ => idtac
    end;
    rewrite scan_app; apply in_or_app; left;
    apply includes_In; vm_compute; reflexivity.
Qed.

(** X14. What is installed and what is loaded are decided apart.  A run
    that completes runs three commands: npm init, npm install with the
    packages ticked and nothing else, and the fixed development install
    of the language.  The source files it writes, in every variant and
    for every port text, load express, cors, cookie-parser, uuid,
    swagger-ui-express, winston and dotenv, whether they were ticked or
    not. *)
Theorem sources_load_packages_whatever_was_ticked host answers u u' evs :
  scaffold host answers u = (Done tt, u', evs) ->
  commands evs
    = [ "npm init -y"; "npm install " ++ join " " (packages answers);
        devInstall (language answers =? "TypeScript")%string ]
  /\ forall package,
       In package loadedPackages ->
       exists path content,
         written path evs = [content] /\ In package (literals content).
Proof.
  intros H.
  split; [apply (commands_scaffold _ _ _ _ _ H) |].
  set (isTS := (language answers =? "TypeScript")%string).
  set (isESM := startsWith (moduleSystem answers) "ES Modules").
  destruct (sources_load isTS isESM) as (H1 & H2 & H3 & H4 & H5 & H6).
  pose proof (source_file_written host answers u u' evs) as Hw.
  fold isTS isESM in Hw. unfold sourceFiles in Hw. cbn [In] in Hw.
  intros package Hpkg. cbn in Hpkg.
  destruct Hpkg as [<- | [<- | [<- | [<- | [<- | [<- | [<- | []]]]]]]].
  - exists (appFile isTS), (appFileContent isTS isESM).
    split; [apply (Hw _ _ H); do 7 right; left; reflexivity | apply includes_In, H1].
  - exists (appFile isTS), (appFileContent isTS isESM).
    split; [apply (Hw _ _ H); do 7 right; left; reflexivity | apply includes_In, H2].
  - exists (appFile isTS), (appFileContent isTS isESM).
    split; [apply (Hw _ _ H); do 7 right; left; reflexivity | apply includes_In, H3].
  - exists (transactionIdMiddlewarePath isTS), (transactionIdMiddlewareContent isTS isESM).
    split; [apply (Hw _ _ H); do 3 right; left; reflexivity | apply includes_In, H4].
  - exists (swaggerPath isTS), (swaggerContent isTS isESM).
    split; [apply (Hw _ _ H); do 2 right; left; reflexivity | apply includes_In, H5].
  - exists (loggerPath isTS), (loggerContent isTS isESM).
    split; [apply (Hw _ _ H); left; reflexivity | apply includes_In, H6].
  - exists (serverFile isTS), (serverFileContent isTS isESM (port answers)).
    split; [apply (Hw _ _ H); do 8 right; left; reflexivity
           | apply server_loads_dotenv].
Qed.

Lemma sources_load_packages_whatever_was_ticked_witness :
  commands (events (scaffold (machine nothingTaken "demo-app")
                      (withPackages [] demoAnswers) demoSession))
  = ["npm init -y"; "npm install "; devInstall true]
  /\ exists path content,
       written path (events (scaffold (machine nothingTaken "demo-app")
                               (withPackages [] demoAnswers) demoSession)) = [content]
       /\ In "express" (literals content).
Proof.
  destruct (sources_load_packages_whatever_was_ticked
              (machine nothingTaken "demo-app") (withPackages [] demoAnswers)
              demoSession demoSession _ eq_refl) as [Hc Hl].
  split; [exact Hc |].
  apply Hl. left. reflexivity.
Defined.
